(** * GamePredictor: team statistics aggregation

    A shallow embedding of [team_stats_aggregator.py] and
    [advanced_team_stats.py]: league and team resolution, the per-season
    fetch from the league-table provider (FotMob), the estimated
    "enhanced" columns, the FBref fetch and the hybrid merge.

    Conventions of the model.
    - Python exceptions are values of [exn]; a computation returns a
      [res] together with the lines it printed.
    - A float is an [fl]: a finite value carried as an exact rational, an
      infinity or NaN.  Binary rounding error and the sign of zero are not
      represented.
    - A number is a Python number or a numpy scalar; the two differ in
      what division by zero does, so the distinction is kept.
    - What the Python and pandas libraries do with text ([str.lower],
      [str.title], [int] on a string, [pandas.to_numeric] on a string,
      [Series.str.contains]) and what the data providers answer are
      fields of the classes [Runtime] and [Provider]. *)

From stdpp Require Import base option list gmap strings.
From Stdlib Require Import Ascii ZArith QArith Qround Lia Lqa.

Local Open Scope string_scope.
Local Open Scope Z_scope.
Local Open Scope list_scope.

(** ** Exceptions and results *)

Inductive exn :=
| LeagueNotFound (league : string)
    (* ValueError: League '...' not found. Available: [...] *)
| TeamNotFound (team league : string) (available : list string)
    (* ValueError: Team '...' not found in ... Available teams: [...] *)
| NoDataFound (team league : string)
    (* ValueError: No data found for team '...' in league '...' *)
| ValueError          (* int() on a text that is not an integer, int(nan) *)
| TypeError           (* int(None), arithmetic on text *)
| OverflowError       (* int(inf) *)
| ZeroDivisionError
| KeyError (key : string)
| ReError             (* a pattern that the re module rejects *)
| ProviderError (what : string).   (* whatever a provider call raises *)

Inductive res (A : Type) :=
| Ok (a : A)
| Raise (e : exn).
Arguments Ok {A} a.
Arguments Raise {A} e.

(** ** Numbers *)

Inductive fl :=
| Fin (q : Q)
| Inf (neg : bool)
| NaN.

(** [np = true]: a numpy scalar (what a DataFrame cell of a numeric column
    holds); [np = false]: a Python [int] or [float]. *)
Inductive num :=
| Int (np : bool) (z : Z)
| Flt (np : bool) (x : fl).

(** A DataFrame cell or a dict value. *)
Inductive cell :=
| CNum (n : num)
| CText (s : string)
| CNone.             (* None *)

Definition is_np (n : num) : bool :=
  match n with Int np _ => np | Flt np _ => np end.

Definition to_fl (n : num) : fl :=
  match n with
  | Int _ z => Fin (inject_Z z)
  | Flt _ x => x
  end.

Definition Qzero (q : Q) : bool := Z.eqb (Qnum q) 0.
Definition Qneg (q : Q) : bool := Z.ltb (Qnum q) 0.
Definition Qpos (q : Q) : bool := Z.ltb 0 (Qnum q).

Definition fl_neg_sign (x : fl) : bool :=
  match x with Fin q => Qneg q | Inf neg => neg | NaN => false end.

Definition fl_mul (x y : fl) : fl :=
  match x, y with
  | NaN, _ | _, NaN => NaN
  | Fin a, Fin b => Fin (Qred (a * b)%Q)
  | Inf n, Fin b => if Qzero b then NaN else Inf (xorb n (Qneg b))
  | Fin a, Inf n => if Qzero a then NaN else Inf (xorb n (Qneg a))
  | Inf n, Inf m => Inf (xorb n m)
  end.

Definition fl_add (x y : fl) : fl :=
  match x, y with
  | NaN, _ | _, NaN => NaN
  | Fin a, Fin b => Fin (Qred (a + b)%Q)
  | Inf n, Fin _ => Inf n
  | Fin _, Inf n => Inf n
  | Inf n, Inf m => if Bool.eqb n m then Inf n else NaN
  end.

(** IEEE division, as numpy performs it: a zero divisor gives an infinity
    or NaN. *)
Definition fl_div (x y : fl) : fl :=
  match x, y with
  | NaN, _ | _, NaN => NaN
  | Fin a, Fin b =>
      if Qzero b then (if Qzero a then NaN else Inf (Qneg a))
      else Fin (Qred (a / b)%Q)
  | Inf n, Fin b => Inf (xorb n (Qneg b))
  | Fin _, Inf _ => Fin 0
  | Inf _, Inf _ => NaN
  end.

Definition fl_gt0 (x : fl) : bool :=
  match x with Fin q => Qpos q | Inf neg => negb neg | NaN => false end.

Definition fl_is_zero (x : fl) : bool :=
  match x with Fin q => Qzero q | _ => false end.

Definition fl_isnan (x : fl) : bool :=
  match x with NaN => true | _ => false end.

(** Nearest integer, ties to the even one. *)
Definition rint (q : Q) : Z :=
  let f := Qfloor q in
  let r := (q - inject_Z f)%Q in
  match (r ?= 1 # 2)%Q with
  | Lt => f
  | Gt => f + 1
  | Eq => if Z.even f then f else f + 1
  end.

(** [round(q, ndigits)] for [ndigits >= 0], on the exact value.  The
    program rounds a binary double, whose result can differ from this one
    in its last place: what is stated about rounded values are ranges and
    the values on the samples, not exact decimals in general. *)
Definition Qround_digits (ndigits : nat) (q : Q) : Q :=
  let p := inject_Z (10 ^ Z.of_nat ndigits) in
  Qred (inject_Z (rint (q * p)%Q) / p)%Q.

Definition fl_round (ndigits : nat) (x : fl) : fl :=
  match x with
  | Fin q => Fin (Qround_digits ndigits q)
  | _ => x
  end.

(** [a / b].  Between two Python numbers a zero divisor raises; as soon as
    one operand is a numpy scalar the division is numpy's and only warns. *)
Definition truediv (a b : num) : res num :=
  if is_np a || is_np b then Ok (Flt true (fl_div (to_fl a) (to_fl b)))
  else if fl_is_zero (to_fl b) then Raise ZeroDivisionError
  else Ok (Flt false (fl_div (to_fl a) (to_fl b))).

(** [a * b]: integer when both are integers, float otherwise. *)
Definition mul (a b : num) : num :=
  match a, b with
  | Int n z, Int m w => Int (n || m) (z * w)
  | _, _ => Flt (is_np a || is_np b) (fl_mul (to_fl a) (to_fl b))
  end.

Definition num_round (ndigits : nat) (a : num) : num :=
  match a with
  | Int np z => Int np z
  | Flt np x => Flt np (fl_round ndigits x)
  end.

Definition gt0 (a : num) : bool := fl_gt0 (to_fl a).

(** [pd.notna]. *)
Definition num_notna (a : num) : bool :=
  match a with Flt _ NaN => false | _ => true end.

Definition notna (c : cell) : bool :=
  match c with
  | CNum n => num_notna n
  | CText _ => true
  | CNone => false
  end.

Definition Qtrunc (q : Q) : Z := Z.quot (Qnum q) (Zpos (Qden q)).

(** [int(x)] on a number: truncation toward zero. *)
Definition int_of_num (a : num) : res Z :=
  match a with
  | Int _ z => Ok z
  | Flt _ (Fin q) => Ok (Qtrunc q)
  | Flt _ (Inf _) => Raise OverflowError
  | Flt _ NaN => Raise ValueError
  end.

(** ** Printed lines and computations *)

(** The summary block printed by [display_team_stats], before formatting. *)
Record summary := {
  avg_points : fl;
  avg_goals_per_game : fl;
  avg_goals_against_per_game : fl;
  avg_goal_difference : fl;
  avg_win_percentage : fl;
  avg_possession : fl;
  avg_shots_per_game : fl;
  best_season : option (string * Z);
  worst_season : option (string * Z)
}.

Inductive line :=
| ErrorFetchingTeams (league : string) (e : exn)
| FoundTeam (name query : string)
| FetchingSeasons (name league : string)
| SeasonStart (season : string)
| TeamNotInSeason (name season : string)
| ErrorFetchingSeason (season : string) (e : exn)
| FetchingFBref (team : string)
| ErrorFetchingFBref (e : exn)
| GettingHybrid (team league : string)
| BasicRetrieved
| ErrorBasic (e : exn)
| AttemptingFBref
| AdvancedRetrieved
| UsingEstimates
| SummaryStatistics (s : summary)
| DisplayError (e : exn).

(** A computation: its outcome and what it printed, oldest line first. *)
Definition io (A : Type) : Type := res A * list line.

Definition ret {A} (a : A) : io A := (Ok a, []).
Definition raise {A} (e : exn) : io A := (Raise e, []).
Definition print (l : line) : io unit := (Ok tt, [l]).
Definition lift {A} (r : res A) : io A := (r, []).

Definition bind {A B} (m : io A) (f : A -> io B) : io B :=
  match m with
  | (Ok a, out) => let (r, out') := f a in (r, (out ++ out')%list)
  | (Raise e, out) => (Raise e, out)
  end.

(** [try_except m handler]: Python's
    [try: m except Exception as e: handler e]. *)
Definition try_except {A} (m : io A) (handler : exn -> io A) : io A :=
  match m with
  | (Ok a, out) => (Ok a, out)
  | (Raise e, out) => let (r, out') := handler e in (r, (out ++ out')%list)
  end.

Declare Scope io_scope.
Delimit Scope io_scope with io.
Notation "x <- m ;; k" := (bind m (fun x => k))
  (at level 100, m at next level, right associativity) : io_scope.
Notation "m ;;; k" := (bind m (fun _ => k))
  (at level 100, right associativity) : io_scope.

Definition rbind {A B} (r : res A) (f : A -> res B) : res B :=
  match r with
  | Ok a => f a
  | Raise e => Raise e
  end.

Declare Scope res_scope.
Delimit Scope res_scope with res.
Notation "x <- m ;; k" := (rbind m (fun x => k))
  (at level 100, m at next level, right associativity) : res_scope.

(** ** Text *)

(** [needle in hay] on Python strings. *)
Fixpoint str_in (needle hay : string) : bool :=
  if String.prefix needle hay then true
  else match hay with
       | EmptyString => false
       | String _ hay' => str_in needle hay'
       end.

(** What the model takes from the Python and pandas libraries. *)
Class Runtime := {
  (** [s.lower()] *)
  lower : string -> string;
  (** [s.title()] *)
  title : string -> string;
  (** [int(s)] on a string; [None] when it raises ValueError *)
  int_of_text : string -> option Z;
  (** [pd.to_numeric(s)] on a string; [None] when [s] is not a number *)
  numeric_of_text : string -> option num;
  (** the matcher behind [Series.str.contains(pat, case=False)]: the
      pattern is compiled as a regular expression ignoring case; [None]
      when the re module rejects it *)
  str_contains : string -> option (string -> bool)
}.

Section Coercions.
Context {RT : Runtime}.

(** [pd.to_numeric(c, errors='coerce')] on a scalar: a number is returned
    as it is, anything that is not a number becomes NaN. *)
Definition to_numeric (c : cell) : num :=
  match c with
  | CNum n => n
  | CText s =>
      match numeric_of_text s with
      | Some n => n
      | None => Flt true NaN
      end
  | CNone => Flt true NaN
  end.

(** [int(c)] on a cell. *)
Definition int_of_cell (c : cell) : res Z :=
  match c with
  | CNum n => int_of_num n
  | CText s =>
      match int_of_text s with
      | Some z => Ok z
      | None => Raise ValueError
      end
  | CNone => Raise TypeError
  end.
End Coercions.

(** ** The league-table source (team_stats_aggregator.py) *)

Definition league_mappings : gmap string string :=
  list_to_map
    [ ("england", "ENG-Premier League");
      ("premier league", "ENG-Premier League");
      ("epl", "ENG-Premier League");
      ("spain", "ESP-La Liga");
      ("la liga", "ESP-La Liga");
      ("germany", "GER-Bundesliga");
      ("bundesliga", "GER-Bundesliga");
      ("italy", "ITA-Serie A");
      ("serie a", "ITA-Serie A");
      ("france", "FRA-Ligue 1");
      ("ligue 1", "FRA-Ligue 1") ].

Definition seasons : list string :=
  ["2024/2025"; "2023/2024"; "2022/2023"; "2021/2022"; "2020/2021"].

Definition team_variations : gmap string string :=
  list_to_map
    [ ("man city", "Manchester City");
      ("man united", "Manchester United");
      ("man u", "Manchester United");
      ("spurs", "Tottenham Hotspur");
      ("tottenham", "Tottenham Hotspur");
      ("real", "Real Madrid");
      ("barca", "Barcelona");
      ("bayern", "Bayern MÃ¼nchen");
      ("dortmund", "Borussia Dortmund");
      ("psg", "Paris Saint-Germain");
      ("juve", "Juventus");
      ("inter", "Inter Milan");
      ("milan", "AC Milan") ].

(** One row of the provider's league table. *)
Record league_row := {
  r_team : string;
  r_MP : cell;
  r_W : cell;
  r_D : cell;
  r_L : cell;
  r_GF : cell;
  r_GA : cell;
  r_GD : cell;
  r_Pts : cell
}.

(** One row of an FBref season table: the three key columns and the
    statistic columns by name.  [f_team = None]: a missing team name. *)
Record fbref_row := {
  f_league : string;
  f_season : string;
  f_team : option string;
  f_cols : gmap string cell
}.

(** The two data providers.  A call answers a table or raises. *)
Class Provider := {
  (** [sd.FotMob(leagues=code, seasons=season).read_league_table()] *)
  read_league_table : string -> string -> res (list league_row);
  (** [self.fbref.read_team_season_stats(stat_type=...)] *)
  read_team_season_stats : string -> res (list fbref_row)
}.

(** The dict built for one season by [get_team_league_table_stats]. *)
Record season_stat := {
  Season : string;
  League : string;
  Team : string;
  Matches_Played : Z;
  Wins : Z;
  Draws : Z;
  Losses : Z;
  Goals_For : Z;
  Goals_Against : Z;
  Goal_Difference : Z;
  Points : Z;
  Win_Percentage : num;
  Goals_Per_Game : num;
  Goals_Against_Per_Game : num
}.

Section LeagueTable.
Context {RT : Runtime} {PV : Provider}.

Definition get_available_teams (league season : string) : io (list string) :=
  match league_mappings !! lower league with
  | None => raise (LeagueNotFound league)
  | Some league_code =>
      try_except
        (league_table <- lift (read_league_table league_code season) ;;
         ret (map r_team league_table))%io
        (fun e => print (ErrorFetchingTeams league e) ;;; ret [])%io
  end.

(** The loop [for team in available_teams: if test(team): return team]. *)
Fixpoint first_team (test : string -> bool) (available_teams : list string)
  : option string :=
  match available_teams with
  | [] => None
  | team :: rest => if test team then Some team else first_team test rest
  end.

Definition exact_match (team_input_lower team : string) : bool :=
  String.eqb (lower team) team_input_lower.

Definition partial_match (team_input_lower team : string) : bool :=
  str_in team_input_lower (lower team) || str_in (lower team) team_input_lower.

Definition find_team_match (league team_input season : string)
  : io (option string) :=
  (available_teams <- get_available_teams league season ;;
   match available_teams with
   | [] => ret None
   | _ =>
       let team_input_lower := lower team_input in
       match first_team (exact_match team_input_lower) available_teams with
       | Some team => ret (Some team)
       | None =>
           match first_team (partial_match team_input_lower) available_teams with
           | Some team => ret (Some team)
           | None =>
               match team_variations !! team_input_lower with
               | Some suggested_team =>
                   if bool_decide (suggested_team ∈ available_teams)
                   then ret (Some suggested_team)
                   else ret None
               | None => ret None
               end
           end
       end
   end)%io.

(** [round((wins / mp) * 100, 1) if mp > 0 and pd.notna(wins) else 0] *)
Definition win_percentage_of (mp wins : num) : res num :=
  if gt0 mp && num_notna wins
  then (q <- truediv wins mp ;; Ok (num_round 1 (mul q (Int false 100))))%res
  else Ok (Int false 0).

(** [round(goals / mp, 2) if mp > 0 and pd.notna(goals) else 0] *)
Definition per_game_of (mp goals : num) : res num :=
  if gt0 mp && num_notna goals
  then (q <- truediv goals mp ;; Ok (num_round 2 q))%res
  else Ok (Int false 0).

(** The dict literal of lines 133-148, its entries evaluated in order. *)
Definition season_stats (season league : string) (team_row : league_row)
  : res season_stat :=
  let mp := to_numeric (r_MP team_row) in
  let wins := to_numeric (r_W team_row) in
  let goals_for := to_numeric (r_GF team_row) in
  let goals_against := to_numeric (r_GA team_row) in
  (matches_played <- (if num_notna mp then int_of_num mp else Ok 0) ;;
   wins_i <- (if notna (r_W team_row) then int_of_cell (r_W team_row) else Ok 0) ;;
   draws <- (if notna (r_D team_row) then int_of_cell (r_D team_row) else Ok 0) ;;
   losses <- (if notna (r_L team_row) then int_of_cell (r_L team_row) else Ok 0) ;;
   gf <- (if num_notna goals_for then int_of_num goals_for else Ok 0) ;;
   ga <- (if num_notna goals_against then int_of_num goals_against else Ok 0) ;;
   gd <- (if notna (r_GD team_row) then int_of_cell (r_GD team_row) else Ok 0) ;;
   pts <- (if notna (r_Pts team_row) then int_of_cell (r_Pts team_row) else Ok 0) ;;
   win_percentage <- win_percentage_of mp wins ;;
   goals_per_game <- per_game_of mp goals_for ;;
   goals_against_per_game <- per_game_of mp goals_against ;;
   Ok {| Season := season;
         League := title league;
         Team := r_team team_row;
         Matches_Played := matches_played;
         Wins := wins_i;
         Draws := draws;
         Losses := losses;
         Goals_For := gf;
         Goals_Against := ga;
         Goal_Difference := gd;
         Points := pts;
         Win_Percentage := win_percentage;
         Goals_Per_Game := goals_per_game;
         Goals_Against_Per_Game := goals_against_per_game |})%res.

(** The rows of [league_table[league_table['team'] == name]]. *)
Definition rows_of_team (name : string) (league_table : list league_row)
  : list league_row :=
  List.filter (fun r => String.eqb (r_team r) name) league_table.

(** One turn of the loop over the seasons: the [try] block and its
    handler.  [None]: nothing is appended for this season. *)
Definition fetch_season (league_code league name season : string)
  : io (option season_stat) :=
  try_except
    (print (SeasonStart season) ;;;
     league_table <- lift (read_league_table league_code season) ;;
     match rows_of_team name league_table with
     | team_row :: _ =>
         stats <- lift (season_stats season league team_row) ;;
         ret (Some stats)
     | [] => print (TeamNotInSeason name season) ;;; ret None
     end)%io
    (fun e => print (ErrorFetchingSeason season e) ;;; ret None)%io.

Fixpoint fetch_seasons (league_code league name : string)
    (todo : list string) (team_stats : list season_stat)
  : io (list season_stat) :=
  match todo with
  | [] => ret team_stats
  | season :: rest =>
      (r <- fetch_season league_code league name season ;;
       fetch_seasons league_code league name rest
         (match r with
          | Some stats => team_stats ++ [stats]
          | None => team_stats
          end)%list)%io
  end.

Definition get_team_league_table_stats (league team : string)
  : io (list season_stat) :=
  match league_mappings !! lower league with
  | None => raise (LeagueNotFound league)
  | Some league_code =>
      (found <- find_team_match league team "2024/2025" ;;
       match found with
       | Some (String c s as correct_team_name) =>
           print (FoundTeam correct_team_name team) ;;;
           print (FetchingSeasons correct_team_name league) ;;;
           team_stats <- fetch_seasons league_code league correct_team_name
                           seasons [] ;;
           match team_stats with
           | [] => raise (NoDataFound correct_team_name league)
           | _ => ret team_stats
           end
       | _ =>
           (* [if not correct_team_name]: None, or an empty name *)
           available_teams <- get_available_teams league "2024/2025" ;;
           raise (TeamNotFound team league available_teams)
       end)%io
  end.
End LeagueTable.

(** ** Estimated columns and the report (team_stats_aggregator.py) *)

(** Python's [max(a, b)] and [min(a, b)]: the first argument is kept unless
    the second is strictly beyond it. *)
Definition py_max (a b : Q) : Q := if Qlt_le_dec a b then b else a.
Definition py_min (a b : Q) : Q := if Qlt_le_dec b a then b else a.

(** [min(65, max(35, 50 + GD * 0.3 + Pts * 0.1))], then [.round(1)]. *)
Definition possession_basic (goal_difference points : Z) : Q :=
  Qround_digits 1
    (py_min 65 (py_max 35 (50 + inject_Z goal_difference * (3 # 10)
                              + inject_Z points * (1 # 10)))%Q).

(** [min(65, max(35, 50 + GD * 0.3))], the fill of the hybrid path. *)
Definition possession_hybrid (goal_difference : Z) : Q :=
  py_min 65 (py_max 35 (50 + inject_Z goal_difference * (3 # 10)))%Q.

(** [Series.clip(lower, upper)] on one value; NaN stays NaN. *)
Definition fl_clip (lower upper : Q) (x : fl) : fl :=
  match x with
  | Fin q => if Qlt_le_dec q lower then Fin lower
             else if Qlt_le_dec upper q then Fin upper else Fin q
  | Inf neg => if neg then Fin lower else Fin upper
  | NaN => NaN
  end.

(** The three arrays drawn by [np.random.normal], by row index. *)
Record noise := {
  shots_noise : nat -> Q;     (* normal(0, 1, n) *)
  xgf_noise : nat -> Q;       (* normal(0, 0.1, n) *)
  xga_noise : nat -> Q        (* normal(0, 0.1, n) *)
}.

Record enhanced_stat := {
  basic : season_stat;
  Avg_Possession : fl;
  Shots_Per_Game : fl;
  Expected_Goals_For : fl;
  Expected_Goals_Against : fl
}.

Definition shots_estimate (goals_per_game : num) (eps : Q) : fl :=
  fl_clip 8 20
    (fl_round 1 (fl_add (fl_mul (to_fl goals_per_game) (Fin 6)) (Fin eps))).

Definition expected_goals (goals : Z) (eps : Q) : fl :=
  fl_round 1 (fl_mul (Fin (inject_Z goals)) (Fin (Qred ((9 # 10) + eps)%Q))).

Definition enhance (nz : noise) (i : nat) (row : season_stat) : enhanced_stat :=
  {| basic := row;
     Avg_Possession :=
       Fin (possession_basic (Goal_Difference row) (Points row));
     Shots_Per_Game := shots_estimate (Goals_Per_Game row) (shots_noise nz i);
     Expected_Goals_For := expected_goals (Goals_For row) (xgf_noise nz i);
     Expected_Goals_Against :=
       expected_goals (Goals_Against row) (xga_noise nz i) |}.

(** [Series.mean()]: NaN entries are skipped. *)
Definition fl_sum (xs : list fl) : fl := fold_right fl_add (Fin 0) xs.

Definition mean (xs : list fl) : fl :=
  match List.filter (fun x => negb (fl_isnan x)) xs with
  | [] => NaN
  | ys => fl_div (fl_sum ys) (Fin (inject_Z (Z.of_nat (length ys))))
  end.

Definition of_int (z : Z) : fl := Fin (inject_Z z).

(** The season of the first row that reaches the extreme of the points
    ([idxmax] / [idxmin]); [better p q]: [p] strictly beats [q]. *)
Fixpoint extreme_season (better : Z -> Z -> bool) (rows : list enhanced_stat)
    (current : option (string * Z)) : option (string * Z) :=
  match rows with
  | [] => current
  | r :: rest =>
      let p := Points (basic r) in
      extreme_season better rest
        (match current with
         | Some (s, q) => if better p q then Some (Season (basic r), p)
                          else Some (s, q)
         | None => Some (Season (basic r), p)
         end)
  end.

Definition summary_stats (stats_df : list enhanced_stat) : summary :=
  {| avg_points := mean (map (fun r => of_int (Points (basic r))) stats_df);
     avg_goals_per_game :=
       mean (map (fun r => to_fl (Goals_Per_Game (basic r))) stats_df);
     avg_goals_against_per_game :=
       mean (map (fun r => to_fl (Goals_Against_Per_Game (basic r))) stats_df);
     avg_goal_difference :=
       mean (map (fun r => of_int (Goal_Difference (basic r))) stats_df);
     avg_win_percentage :=
       mean (map (fun r => to_fl (Win_Percentage (basic r))) stats_df);
     avg_possession := mean (map Avg_Possession stats_df);
     avg_shots_per_game := mean (map Shots_Per_Game stats_df);
     best_season := extreme_season Z.gtb stats_df None;
     worst_season := extreme_season Z.ltb stats_df None |}.

Section Report.
Context {RT : Runtime} {PV : Provider}.

Definition get_enhanced_team_stats (league team : string) (nz : noise)
  : io (list enhanced_stat) :=
  (basic_stats <- get_team_league_table_stats league team ;;
   ret (imap (enhance nz) basic_stats))%io.

(** The banner and the table are printed too; only the summary block is
    kept among the printed lines. *)
Definition display_team_stats (league team : string) (nz : noise)
  : io (option (list enhanced_stat)) :=
  try_except
    (stats_df <- get_enhanced_team_stats league team nz ;;
     print (SummaryStatistics (summary_stats stats_df)) ;;;
     ret (Some stats_df))%io
    (fun e => print (DisplayError e) ;;; ret None)%io.
End Report.

(** ** The FBref source and the hybrid table (advanced_team_stats.py) *)

Definition fbref_league_mappings : gmap string string :=
  list_to_map
    [ ("england", "Premier League");
      ("premier league", "Premier League");
      ("epl", "Premier League");
      ("spain", "La Liga");
      ("la liga", "La Liga");
      ("germany", "Bundesliga");
      ("bundesliga", "Bundesliga");
      ("italy", "Serie A");
      ("serie a", "Serie A");
      ("france", "Ligue 1");
      ("ligue 1", "Ligue 1") ].

Definition fbref_seasons : list string :=
  ["2024-2025"; "2023-2024"; "2022-2023"; "2021-2022"; "2020-2021"].

(** [row.get(key, 0)] *)
Definition row_get (row : fbref_row) (key : string) : cell :=
  default (CNum (Int false 0)) (f_cols row !! key).

(** [a / b] on two dict or cell values. *)
Definition cell_truediv (a b : cell) : res num :=
  match a, b with
  | CNum x, CNum y => truediv x y
  | _, _ => Raise TypeError
  end.

(** [c * k] for a column value [c] and a float constant [k]. *)
Definition cell_mul (c : cell) (k : Q) : res cell :=
  match c with
  | CNum x => Ok (CNum (mul x (Flt false (Fin k))))
  | _ => Raise TypeError
  end.

(** A row of the merged table. *)
Record merged_stat := {
  m_basic : season_stat;
  m_Avg_Possession : cell;
  m_Shots_Per_Game : cell;
  m_Shots_on_Target_Per_Game : cell
}.

(** What [get_hybrid_team_stats] returns when it returns a table: the
    merged table, or [basic_stats] itself. *)
Inductive hybrid_table :=
| Merged (rows : list merged_stat)
| Basic (rows : list season_stat).

Definition basic_columns : list string :=
  ["Season"; "League"; "Team"; "Matches_Played"; "Wins"; "Draws"; "Losses";
   "Goals_For"; "Goals_Against"; "Goal_Difference"; "Points";
   "Win_Percentage"; "Goals_Per_Game"; "Goals_Against_Per_Game"].

Definition columns (t : hybrid_table) : list string :=
  match t with
  | Merged _ =>
      basic_columns
        ++ ["Avg_Possession"; "Shots_Per_Game"; "Shots_on_Target_Per_Game"]
  | Basic _ => basic_columns
  end.

Definition nan_cell : cell := CNum (Flt true NaN).

(** The value of a column in a row of [pd.DataFrame(team_data)]: NaN where
    the dict of that season has no such key. *)
Definition frame_get (row : gmap string cell) (key : string) : cell :=
  default nan_cell (row !! key).

(** [frame[keys]]: KeyError when a column is in no row of the frame. *)
Fixpoint check_columns (frame : list (gmap string cell)) (keys : list string)
  : res unit :=
  match keys with
  | [] => Ok tt
  | key :: rest =>
      if existsb (fun row => bool_decide (is_Some (row !! key))) frame
      then check_columns frame rest
      else Raise (KeyError key)
  end.

Definition cell_is_text (c : cell) (s : string) : bool :=
  match c with
  | CText t => String.eqb t s
  | _ => false
  end.

(** The rows of the right table that a left row is joined with. *)
Definition joined (left : season_stat) (right : gmap string cell) : bool :=
  cell_is_text (frame_get right "Season") (Season left).

(** [pd.merge(basic_stats, fbref_stats[...], on='Season', how='left')] *)
Definition merge_row (right : list (gmap string cell)) (left : season_stat)
  : list merged_stat :=
  match List.filter (joined left) right with
  | [] => [ {| m_basic := left;
               m_Avg_Possession := nan_cell;
               m_Shots_Per_Game := nan_cell;
               m_Shots_on_Target_Per_Game := nan_cell |} ]
  | matches =>
      map (fun r => {| m_basic := left;
                       m_Avg_Possession := frame_get r "Avg_Possession";
                       m_Shots_Per_Game := frame_get r "Shots_Per_Game";
                       m_Shots_on_Target_Per_Game :=
                         frame_get r "Shots_on_Target_Per_Game" |})
          matches
  end.

Definition merge (basic_stats : list season_stat)
    (right : list (gmap string cell)) : list merged_stat :=
  flat_map (merge_row right) basic_stats.

(** [column.fillna(estimate)] on one value. *)
Definition fillna (c estimate : cell) : cell :=
  if notna c then c else estimate.

Definition possession_fill (row : merged_stat) : cell :=
  CNum (Flt true (Fin (possession_hybrid (Goal_Difference (m_basic row))))).

Definition shots_fill (row : merged_stat) : cell :=
  CNum (mul (Flt true (to_fl (Goals_Per_Game (m_basic row)))) (Int false 6)).

(** The three [fillna] assignments on one row; the estimates of a column
    are computed for every row of the table, whether or not they are
    used. *)
Definition fill_row (row : merged_stat) : res merged_stat :=
  let possession := fillna (m_Avg_Possession row) (possession_fill row) in
  let shots := fillna (m_Shots_Per_Game row) (shots_fill row) in
  (on_target_estimate <- cell_mul shots (35 # 100) ;;
   Ok {| m_basic := m_basic row;
         m_Avg_Possession := possession;
         m_Shots_Per_Game := shots;
         m_Shots_on_Target_Per_Game :=
           fillna (m_Shots_on_Target_Per_Game row) on_target_estimate |})%res.

Fixpoint mapM {A B} (f : A -> res B) (l : list A) : res (list B) :=
  match l with
  | [] => Ok []
  | a :: rest => (b <- f a ;; bs <- mapM f rest ;; Ok (b :: bs))%res
  end.

Section FBref.
Context {RT : Runtime} {PV : Provider}.

(** [table[(table['league'] == league_name) & (table['season'] == season)
          & table['team'].str.contains(team, case=False, na=False)]] *)
Definition select (table : list fbref_row) (league_name season team : string)
  : res (list fbref_row) :=
  match str_contains team with
  | None => Raise ReError
  | Some matches =>
      Ok (List.filter
            (fun r => String.eqb (f_league r) league_name
                      && String.eqb (f_season r) season
                      && match f_team r with
                         | Some t => matches t
                         | None => false
                         end)
            table)
  end.

Definition standard_entries (std_row : fbref_row) (league_name season : string)
    (season_data : gmap string cell) : gmap string cell :=
  <[ "Points" := row_get std_row "pts" ]>
  (<[ "Goal_Difference" := row_get std_row "gd" ]>
  (<[ "Goals_Against" := row_get std_row "ga" ]>
  (<[ "Goals_For" := row_get std_row "gf" ]>
  (<[ "Losses" := row_get std_row "l" ]>
  (<[ "Draws" := row_get std_row "d" ]>
  (<[ "Wins" := row_get std_row "w" ]>
  (<[ "Matches_Played" := row_get std_row "mp" ]>
  (<[ "League" := CText league_name ]>
  (<[ "Team" := from_option CText CNone (f_team std_row) ]>
  (<[ "Season" := CText season ]> season_data)))))))))).

(** [season_data.get('Matches_Played', 1)] *)
Definition matches_played_or_1 (season_data : gmap string cell) : cell :=
  default (CNum (Int false 1)) (season_data !! "Matches_Played").

(** The body of the loop over the seasons: the dict of one season. *)
Definition fbref_season (standard possession shooting : list fbref_row)
    (league_name team season : string) : res (gmap string cell) :=
  (std_data <- select standard league_name season team ;;
   let season_data1 :=
     match std_data with
     | std_row :: _ => standard_entries std_row league_name season ∅
     | [] => ∅
     end in
   poss_data <- select possession league_name season team ;;
   let season_data2 :=
     match poss_data with
     | poss_row :: _ =>
         <[ "Avg_Possession" := row_get poss_row "poss" ]> season_data1
     | [] => season_data1
     end in
   shot_data <- select shooting league_name season team ;;
   match shot_data with
   | shot_row :: _ =>
       shots <- cell_truediv (row_get shot_row "sh")
                             (matches_played_or_1 season_data2) ;;
       let season_data3 :=
         <[ "Shots_Per_Game" := CNum shots ]> season_data2 in
       on_target <- cell_truediv (row_get shot_row "sot")
                                 (matches_played_or_1 season_data3) ;;
       Ok (<[ "Shots_on_Target_Per_Game" := CNum on_target ]> season_data3)
   | [] => Ok season_data2
   end)%res.

Fixpoint fbref_loop (standard possession shooting : list fbref_row)
    (league_name team : string) (todo : list string)
    (team_data : list (gmap string cell))
  : res (list (gmap string cell)) :=
  match todo with
  | [] => Ok team_data
  | season :: rest =>
      (season_data <- fbref_season standard possession shooting
                        league_name team season ;;
       fbref_loop standard possession shooting league_name team rest
         (if bool_decide (season_data = ∅) then team_data
          else team_data ++ [season_data])%list)%res
  end.

Definition get_fbref_team_stats (league team : string)
  : io (option (list (gmap string cell))) :=
  try_except
    (print (FetchingFBref team) ;;;
     standard_stats <- lift (read_team_season_stats "standard") ;;
     possession_stats <- lift (read_team_season_stats "possession") ;;
     shooting_stats <- lift (read_team_season_stats "shooting") ;;
     match fbref_league_mappings !! lower league with
     | None => ret None
     | Some league_name =>
         team_data <- lift (fbref_loop standard_stats possession_stats
                              shooting_stats league_name team
                              fbref_seasons []) ;;
         match team_data with
         | [] => ret None
         | _ => ret (Some team_data)
         end
     end)%io
    (fun e => print (ErrorFetchingFBref e) ;;; ret None)%io.

Definition get_hybrid_team_stats (league team : string)
  : io (option hybrid_table) :=
  (print (GettingHybrid team league) ;;;
   basic_try <-
     try_except
       (basic_stats <- get_team_league_table_stats league team ;;
        print BasicRetrieved ;;;
        ret (Some basic_stats))
       (fun e => print (ErrorBasic e) ;;; ret None) ;;
   match basic_try with
   | None => ret None
   | Some basic_stats =>
       print AttemptingFBref ;;;
       fbref_stats <- get_fbref_team_stats league team ;;
       match fbref_stats with
       | Some ((_ :: _) as frame) =>
           print AdvancedRetrieved ;;;
           lift (check_columns frame
                   ["Season"; "Avg_Possession"; "Shots_Per_Game";
                    "Shots_on_Target_Per_Game"]) ;;;
           merged_stats <- lift (mapM fill_row (merge basic_stats frame)) ;;
           ret (Some (Merged merged_stats))
       | _ =>
           print UsingEstimates ;;;
           ret (Some (Basic basic_stats))
       end
   end)%io.
End FBref.

(** ** A runtime for plain ASCII text

    The instance used to run the model on examples: ASCII case mapping,
    integers written as an optional sign and decimal digits, and patterns
    without regular-expression metacharacters, for which the search of
    [str.contains] is substring containment. *)

Definition is_upper (c : ascii) : bool :=
  let n := nat_of_ascii c in (65 <=? n)%nat && (n <=? 90)%nat.
Definition is_lower (c : ascii) : bool :=
  let n := nat_of_ascii c in (97 <=? n)%nat && (n <=? 122)%nat.
Definition ascii_to_lower (c : ascii) : ascii :=
  if is_upper c then ascii_of_nat (nat_of_ascii c + 32) else c.
Definition ascii_to_upper (c : ascii) : ascii :=
  if is_lower c then ascii_of_nat (nat_of_ascii c - 32) else c.

Fixpoint ascii_lower (s : string) : string :=
  match s with
  | EmptyString => EmptyString
  | String c rest => String (ascii_to_lower c) (ascii_lower rest)
  end.

(** [in_word]: the previous character was a letter. *)
Fixpoint ascii_title_from (in_word : bool) (s : string) : string :=
  match s with
  | EmptyString => EmptyString
  | String c rest =>
      String (if in_word then ascii_to_lower c else ascii_to_upper c)
             (ascii_title_from (is_upper c || is_lower c) rest)
  end.
Definition ascii_title (s : string) : string := ascii_title_from false s.

Fixpoint decimal_digits (s : string) (acc : Z) : option Z :=
  match s with
  | EmptyString => Some acc
  | String c rest =>
      let n := Z.of_nat (nat_of_ascii c) in
      if (48 <=? n) && (n <=? 57) then decimal_digits rest (10 * acc + (n - 48))
      else None
  end.

Definition decimal_int (s : string) : option Z :=
  match s with
  | EmptyString => None
  | String "-" (String _ _ as rest) => Z.opp <$> decimal_digits rest 0
  | String "-" EmptyString => None
  | _ => decimal_digits s 0
  end.

#[local] Instance ascii_runtime : Runtime := {|
  lower := ascii_lower;
  title := ascii_title;
  int_of_text := decimal_int;
  numeric_of_text := fun s => Int true <$> decimal_int s;
  str_contains := fun pat => Some (fun s => str_in (ascii_lower pat) (ascii_lower s))
|}.

(** ** Sample tables *)

Definition int_cell (z : Z) : cell := CNum (Int true z).

Definition table_row (team : string) (mp w d l : Z) (gf ga : string)
    (gd pts : Z) : league_row :=
  {| r_team := team; r_MP := int_cell mp; r_W := int_cell w;
     r_D := int_cell d; r_L := int_cell l;
     r_GF := CText gf; r_GA := CText ga;
     r_GD := int_cell gd; r_Pts := int_cell pts |}.

(** ** Reference definitions used by the properties *)

(** The resolution order in the words of the specification: [resolves q
    roster r] when [r] is what the three steps, tried in order on the
    lower-cased query [q], give on [roster]. *)
Section ResolutionSpec.
Context {RT : Runtime}.

Definition is_exact (q t : string) : Prop := lower t = q.
Definition is_partial (q t : string) : Prop :=
  str_in q (lower t) = true \/ str_in (lower t) q = true.

Inductive resolves (q : string) (roster : list string)
  : option string -> Prop :=
| resolves_exact before t after :
    roster = before ++ t :: after ->
    is_exact q t ->
    (forall u, In u before -> ~ is_exact q u) ->
    resolves q roster (Some t)
| resolves_partial before t after :
    (forall u, In u roster -> ~ is_exact q u) ->
    roster = before ++ t :: after ->
    is_partial q t ->
    (forall u, In u before -> ~ is_partial q u) ->
    resolves q roster (Some t)
| resolves_alias name :
    (forall u, In u roster -> ~ is_exact q u) ->
    (forall u, In u roster -> ~ is_partial q u) ->
    team_variations !! q = Some name ->
    In name roster ->
    resolves q roster (Some name)
| resolves_not_found :
    (forall u, In u roster -> ~ is_exact q u) ->
    (forall u, In u roster -> ~ is_partial q u) ->
    (forall name, team_variations !! q = Some name -> ~ In name roster) ->
    resolves q roster None.
End ResolutionSpec.

Definition is_ok {A} (r : res A) : bool :=
  match r with Ok _ => true | Raise _ => false end.

Section Conversion.
Context {RT : Runtime}.

(** [int(c) if pd.notna(c) else 0] returns. *)
Definition int_converts (c : cell) : bool :=
  if notna c then is_ok (int_of_cell c) else true.

(** [int(n) if pd.notna(n) else 0] returns, for [n = pd.to_numeric(c)]. *)
Definition numeric_converts (c : cell) : bool :=
  let n := to_numeric c in
  if num_notna n then is_ok (int_of_num n) else true.

(** The integer that a column of the record gets from the cell [c]:
    [int(c) if pd.notna(c) else 0]. *)
Definition int_or_zero (c : cell) : res Z :=
  if notna c then int_of_cell c else Ok 0.

(** The same for a column that is coerced first:
    [int(n) if pd.notna(n) else 0] with [n = pd.to_numeric(c)]. *)
Definition numeric_int_or_zero (c : cell) : res Z :=
  if num_notna (to_numeric c) then int_of_num (to_numeric c) else Ok 0.

(** The row of a season converts: none of the eight conversions of the
    dict literal raises. *)
Definition converts (row : league_row) : bool :=
  numeric_converts (r_MP row) && int_converts (r_W row)
  && int_converts (r_D row) && int_converts (r_L row)
  && numeric_converts (r_GF row) && numeric_converts (r_GA row)
  && int_converts (r_GD row) && int_converts (r_Pts row).
End Conversion.

Section Inclusion.
Context {RT : Runtime} {PV : Provider}.

(** The row the provider has for the team in a season: the first row of
    that name in the season's table, if the call returns and there is
    one. *)
Definition matching_row (league_code name season : string)
  : option league_row :=
  match read_league_table league_code season with
  | Ok league_table => head (rows_of_team name league_table)
  | Raise _ => None
  end.

Definition included (league_code name season : string) : bool :=
  match matching_row league_code name season with
  | Some row => converts row
  | None => false
  end.
End Inclusion.

(** A value that is a finite number between two bounds. *)
Definition within (lo hi : Q) (x : fl) : Prop :=
  match x with
  | Fin q => (lo <= q <= hi)%Q
  | _ => False
  end.

(** Rows used by the examples. *)
Definition arsenal_2024 : league_row :=
  table_row "Arsenal" 38 20 14 4 "69" "34" 35 74.
Definition arsenal_2023 : league_row :=
  table_row "Arsenal" 38 28 5 5 "91" "29" 62 89.
Definition nothing_played : league_row :=
  table_row "Arsenal" 0 0 0 0 "0" "0" 0 0.
Definition more_wins_than_matches : league_row :=
  table_row "Arsenal" 3 5 0 0 "10" "4" 6 9.

Section Records.
Context {RT : Runtime} {PV : Provider}.

(** The record a season contributes to the table, if any. *)
Definition season_record (league_code league name season : string)
  : option season_stat :=
  match matching_row league_code name season with
  | Some row =>
      match season_stats season league row with
      | Ok stats => Some stats
      | Raise _ => None
      end
  | None => None
  end.
End Records.

(** A record all of whose ratios are numbers (possibly infinite), not NaN. *)
Definition ratios_defined (st : season_stat) : Prop :=
  fl_isnan (to_fl (Win_Percentage st)) = false
  /\ fl_isnan (to_fl (Goals_Per_Game st)) = false
  /\ fl_isnan (to_fl (Goals_Against_Per_Game st)) = false.

Definition is_team_not_found (e : exn) : bool :=
  match e with TeamNotFound _ _ _ => true | _ => false end.

(** ** Sample providers *)

(** Every call raises. *)
#[local] Instance provider_down : Provider := {|
  read_league_table := fun _ _ => Raise (ProviderError "connection refused");
  read_team_season_stats := fun _ => Raise (ProviderError "connection refused")
|}.

Definition tottenham : league_row :=
  table_row "Tottenham Hotspur" 38 11 5 22 "64" "65" (-1) 38.
Definition chelsea : league_row :=
  table_row "Chelsea" 38 20 9 9 "64" "43" 21 69.

(** A league table provider answering from [tables], by season; FBref is
    down. *)
Definition league_table_provider
    (tables : string -> res (list league_row)) : Provider := {|
  read_league_table := fun league_code season =>
    if String.eqb league_code "ENG-Premier League" then tables season
    else Raise (ProviderError "unknown league");
  read_team_season_stats := fun _ => Raise (ProviderError "connection refused")
|}.

(** Arsenal present in three of the five seasons: absent from the table of
    2022/2023, the call for 2021/2022 fails. *)
Definition three_of_five (season : string) : res (list league_row) :=
  if String.eqb season "2024/2025" then Ok [chelsea; arsenal_2024; tottenham]
  else if String.eqb season "2023/2024" then Ok [arsenal_2023; chelsea]
  else if String.eqb season "2022/2023" then Ok [chelsea; tottenham]
  else if String.eqb season "2021/2022" then Raise (ProviderError "timeout")
  else Ok [table_row "Arsenal" 38 18 7 13 "55" "39" 16 61].

(** As [three_of_five], but the row of 2023/2024 has a text in its points
    column. *)
Definition points_as_text : league_row :=
  {| r_team := "Arsenal"; r_MP := int_cell 38; r_W := int_cell 28;
     r_D := int_cell 5; r_L := int_cell 5;
     r_GF := CText "91"; r_GA := CText "29";
     r_GD := int_cell 62; r_Pts := CText "n/a" |}.

Definition three_rows_one_unreadable (season : string)
  : res (list league_row) :=
  if String.eqb season "2023/2024" then Ok [points_as_text; chelsea]
  else three_of_five season.

(** A row whose goal difference is not goals for minus goals against. *)
Definition inconsistent_difference : league_row :=
  table_row "Arsenal" 38 20 14 4 "69" "34" 99 74.

Definition only_2024 (row : league_row) (season : string)
  : res (list league_row) :=
  if String.eqb season "2024/2025" then Ok [chelsea; row]
  else Ok [chelsea].

Section CellKinds.
Context {RT : Runtime}.

(** The value of a cell is not a number: [pd.to_numeric] gives NaN for
    it (a text that does not parse, a missing value). *)
Definition unparseable (c : cell) : Prop :=
  num_notna (to_numeric c) = false.

(** A text that [int()] rejects. *)
Definition rejected_text (c : cell) : Prop :=
  exists s, c = CText s /\ int_of_text s = None.
End CellKinds.

Definition no_noise : noise :=
  {| shots_noise := fun _ => 0%Q;
     xgf_noise := fun _ => 0%Q;
     xga_noise := fun _ => 0%Q |}.

(** The row of the merged table whose three added columns are all filled
    with the estimates computed from the league-table record. *)
Definition estimated_row (st : season_stat) : merged_stat :=
  let unfilled := {| m_basic := st;
                     m_Avg_Possession := nan_cell;
                     m_Shots_Per_Game := nan_cell;
                     m_Shots_on_Target_Per_Game := nan_cell |} in
  {| m_basic := st;
     m_Avg_Possession := possession_fill unfilled;
     m_Shots_Per_Game := shots_fill unfilled;
     m_Shots_on_Target_Per_Game :=
       CNum (mul (mul (Flt true (to_fl (Goals_Per_Game st))) (Int false 6))
                 (Flt false (Fin (35 # 100)))) |}.

Definition fbref_row_of (season team : string) (cols : list (string * cell))
  : fbref_row :=
  {| f_league := "Premier League"; f_season := season; f_team := Some team;
     f_cols := list_to_map cols |}.

Definition manchester_city : league_row :=
  table_row "Manchester City" 38 21 8 9 "72" "44" 28 71.
Definition leicester_city : league_row :=
  table_row "Leicester City" 38 6 7 25 "33" "80" (-47) 25.

(** Two clubs whose names contain "city": the league table lists
    Manchester City first, the FBref tables list Leicester City first. *)
#[local] Instance two_cities : Provider := {|
  read_league_table := fun league_code season =>
    if String.eqb league_code "ENG-Premier League"
    then (if String.eqb season "2024/2025"
          then Ok [manchester_city; chelsea; leicester_city]
          else Ok [chelsea])
    else Raise (ProviderError "unknown league");
  read_team_season_stats := fun stat_type =>
    if String.eqb stat_type "standard" then
      Ok [ fbref_row_of "2024-2025" "Leicester City"
             [("mp", int_cell 38); ("w", int_cell 6); ("pts", int_cell 25)];
           fbref_row_of "2024-2025" "Manchester City"
             [("mp", int_cell 38); ("w", int_cell 21); ("pts", int_cell 71)] ]
    else if String.eqb stat_type "possession" then
      Ok [ fbref_row_of "2024-2025" "Leicester City"
             [("poss", CNum (Flt true (Fin (452 # 10))))];
           fbref_row_of "2024-2025" "Manchester City"
             [("poss", CNum (Flt true (Fin (613 # 10))))] ]
    else
      Ok [ fbref_row_of "2024-2025" "Leicester City"
             [("sh", int_cell 380); ("sot", int_cell 114)];
           fbref_row_of "2024-2025" "Manchester City"
             [("sh", int_cell 608); ("sot", int_cell 228)] ]
|}.

(** The dict that the FBref fetch builds for 2024-2025 from [two_cities]
    on the query "city". *)
Definition leicester_city_2024 : gmap string cell :=
  list_to_map
    [ ("Season", CText "2024-2025"); ("Team", CText "Leicester City");
      ("League", CText "Premier League");
      ("Matches_Played", int_cell 38); ("Wins", int_cell 6);
      ("Draws", CNum (Int false 0)); ("Losses", CNum (Int false 0));
      ("Goals_For", CNum (Int false 0)); ("Goals_Against", CNum (Int false 0));
      ("Goal_Difference", CNum (Int false 0)); ("Points", int_cell 25);
      ("Avg_Possession", CNum (Flt true (Fin (452 # 10))));
      ("Shots_Per_Game", CNum (Flt true (Fin 10)));
      ("Shots_on_Target_Per_Game", CNum (Flt true (Fin 3))) ].

(** FBref tables in which Arsenal has played no match in 2024-2025 but
    has shots recorded; [np] tells whether the cells are numpy scalars or
    Python integers. *)
Definition no_match_played (np : bool) : Provider := {|
  read_league_table := fun league_code season =>
    if String.eqb league_code "ENG-Premier League" then three_of_five season
    else Raise (ProviderError "unknown league");
  read_team_season_stats := fun stat_type =>
    if String.eqb stat_type "standard" then
      Ok [ fbref_row_of "2024-2025" "Arsenal" [("mp", CNum (Int np 0))];
           fbref_row_of "2023-2024" "Arsenal" [("mp", CNum (Int np 38))] ]
    else if String.eqb stat_type "possession" then
      Ok [ fbref_row_of "2023-2024" "Arsenal"
             [("poss", CNum (Flt np (Fin (58 # 1))))] ]
    else
      Ok [ fbref_row_of "2024-2025" "Arsenal"
             [("sh", CNum (Int np 10)); ("sot", CNum (Int np 4))];
           fbref_row_of "2023-2024" "Arsenal"
             [("sh", CNum (Int np 646)); ("sot", CNum (Int np 228))] ]
|}.

(** The dicts that the FBref fetch builds from [no_match_played true] on
    the query "arsenal". *)
Definition arsenal_unplayed_2024 : gmap string cell :=
  list_to_map
    [ ("Season", CText "2024-2025"); ("Team", CText "Arsenal");
      ("League", CText "Premier League");
      ("Matches_Played", CNum (Int true 0)); ("Wins", CNum (Int false 0));
      ("Draws", CNum (Int false 0)); ("Losses", CNum (Int false 0));
      ("Goals_For", CNum (Int false 0)); ("Goals_Against", CNum (Int false 0));
      ("Goal_Difference", CNum (Int false 0)); ("Points", CNum (Int false 0));
      ("Shots_Per_Game", CNum (Flt true (Inf false)));
      ("Shots_on_Target_Per_Game", CNum (Flt true (Inf false))) ].

Definition arsenal_fbref_2023 : gmap string cell :=
  list_to_map
    [ ("Season", CText "2023-2024"); ("Team", CText "Arsenal");
      ("League", CText "Premier League");
      ("Matches_Played", CNum (Int true 38)); ("Wins", CNum (Int false 0));
      ("Draws", CNum (Int false 0)); ("Losses", CNum (Int false 0));
      ("Goals_For", CNum (Int false 0)); ("Goals_Against", CNum (Int false 0));
      ("Goal_Difference", CNum (Int false 0)); ("Points", CNum (Int false 0));
      ("Avg_Possession", CNum (Flt true (Fin 58)));
      ("Shots_Per_Game", CNum (Flt true (Fin 17)));
      ("Shots_on_Target_Per_Game", CNum (Flt true (Fin 6))) ].

(** ** Listing the teams of a league (team_stats_aggregator.py) *)

(** What [show_available_teams] prints: the numbered roster, or the line
    saying that no team was found. *)
Inductive listing :=
| TeamsListed (league : string) (numbered : list (nat * string))
| NoTeamsFound (league : string).

(** [enumerate(teams, start)] *)
Definition enumerate_from (start : nat) (teams : list string)
  : list (nat * string) :=
  imap (fun i team => ((start + i)%nat, team)) teams.

Section Listing.
Context {RT : Runtime} {PV : Provider}.

Definition show_available_teams (league : string) : io listing :=
  (teams <- get_available_teams league "2024/2025" ;;
   match teams with
   | [] => ret (NoTeamsFound league)
   | _ => ret (TeamsListed league (enumerate_from 1 teams))
   end)%io.
End Listing.

(** ** The league-table script (predictor.py) *)

(** The dict [league_tables] of the script, over the five tables loaded. *)
Definition league_tables
    (premier_league la_liga bundesliga serie_a ligue_1 : list league_row)
  : gmap string (list league_row) :=
  list_to_map
    [ ("england", premier_league);
      ("premier league", premier_league);
      ("epl", premier_league);
      ("spain", la_liga);
      ("la liga", la_liga);
      ("germany", bundesliga);
      ("bundesliga", bundesliga);
      ("italy", serie_a);
      ("serie a", serie_a);
      ("france", ligue_1);
      ("ligue 1", ligue_1) ].

(** What the script prints after the prompt. *)
Inductive shown :=
| ShowingTable (heading : string) (table : list league_row)
| LeagueNotListed.

Section Predictor.
Context {RT : Runtime} {PV : Provider}.

(** The script: the five tables are loaded first, then the league typed
    by the user is looked up. *)
Definition predictor (typed : string) : res shown :=
  (premier_league <- read_league_table "ENG-Premier League" "2024/2025" ;;
   la_liga <- read_league_table "ESP-La Liga" "2024/2025" ;;
   bundesliga <- read_league_table "GER-Bundesliga" "2024/2025" ;;
   serie_a <- read_league_table "ITA-Serie A" "2024/2025" ;;
   ligue_1 <- read_league_table "FRA-Ligue 1" "2024/2025" ;;
   let league_input := lower typed in
   match league_tables premier_league la_liga bundesliga serie_a ligue_1
         !! league_input with
   | Some table => Ok (ShowingTable (title league_input) table)
   | None => Ok LeagueNotListed
   end)%res.
End Predictor.

(** The league codes the script loads, in order. *)
Definition predictor_codes : list string :=
  ["ENG-Premier League"; "ESP-La Liga"; "GER-Bundesliga"; "ITA-Serie A";
   "FRA-Ligue 1"].

(** ** Further sample providers *)

(** As [two_cities], but FBref has no possession table rows. *)
Definition without_possession : Provider := {|
  read_league_table := read_league_table (Provider := two_cities);
  read_team_season_stats := fun stat_type =>
    if String.eqb stat_type "possession" then Ok []
    else read_team_season_stats (Provider := two_cities) stat_type
|}.

(** Every league answers the same one-row table. *)
Definition same_table_everywhere : Provider := {|
  read_league_table := fun _ _ => Ok [chelsea];
  read_team_season_stats := fun _ => Raise (ProviderError "connection refused")
|}.

(** The points, as integers, of a table of the report. *)
Definition points_of (r : enhanced_stat) : Z := Points (basic r).

(** The report of Arsenal from [three_of_five], without noise. *)
Definition arsenal_report : list enhanced_stat :=
  imap (enhance no_noise)
    (omap (season_record (PV := league_table_provider three_of_five)
             "ENG-Premier League" "england" "Arsenal") seasons).

(** ** The quick test (tests/test_team_stats.py) *)

(** What the test prints: its own lines, and those of the aggregator. *)
Inductive test_line :=
| TestingArsenal
| FromAggregator (l : line)
| TestCompleted
| TestFailed (e : exn)
| TryingDebug
| AvailableTeams (teams : list string)
| DebugError (e : exn).

Section QuickTest.
Context {RT : Runtime} {PV : Provider}.

(** The value returned, and the lines printed.  When the [try] block ends
    with [stats_df] being None the function falls off its end and returns
    None. *)
Definition test_team_stats (nz : noise)
  : option (list enhanced_stat) * list test_line :=
  let (r, out) := display_team_stats "england" "Arsenal" nz in
  let printed := TestingArsenal :: map FromAggregator out in
  match r with
  | Ok (Some stats_df) => (Some stats_df, printed ++ [TestCompleted])
  | Ok None => (None, printed)
  | Raise e =>
      let (teams, out') := get_available_teams "england" "2024/2025" in
      (None,
       printed ++ [TestFailed e; TryingDebug] ++ map FromAggregator out'
         ++ [match teams with
             | Ok teams => AvailableTeams teams
             | Raise debug_e => DebugError debug_e
             end])
  end%list.
End QuickTest.

(** * Properties *)

(** ** Team resolution *)

Section Resolution.
Context {RT : Runtime} {PV : Provider}.

Lemma first_team_some test l t :
  first_team test l = Some t ->
  exists before after,
    l = before ++ t :: after /\ test t = true
    /\ forall u, In u before -> test u = false.
Proof.
  induction l as [|a l IH]; simpl; [discriminate|].
  destruct (test a) eqn:Ha.
  - intros [= ->]. exists [], l. repeat split; [done|]. intros u [].
  - intros H. destruct (IH H) as (b & c & -> & Ht & Hb).
    exists (a :: b), c. repeat split; [done|].
    intros u [<-|Hu]; auto.
Qed.

Lemma first_team_none test l :
  first_team test l = None -> forall u, In u l -> test u = false.
Proof.
  induction l as [|a l IH]; simpl; [intros _ u []|].
  destruct (test a) eqn:Ha; [discriminate|].
  intros H u [<-|Hu]; auto.
Qed.

Lemma exact_match_iff q t : exact_match q t = true <-> is_exact q t.
Proof. unfold exact_match, is_exact. apply String.eqb_eq. Qed.

Lemma partial_match_iff q t : partial_match q t = true <-> is_partial q t.
Proof. unfold partial_match, is_partial. apply orb_true_iff. Qed.

Lemma exact_match_false q t : exact_match q t = false -> ~ is_exact q t.
Proof. rewrite <- exact_match_iff. congruence. Qed.

Lemma partial_match_false q t : partial_match q t = false -> ~ is_partial q t.
Proof. rewrite <- partial_match_iff. congruence. Qed.

(** The pure part of [find_team_match], on a roster already fetched. *)
Lemma get_available_teams_ok league season code table :
  league_mappings !! lower league = Some code ->
  read_league_table code season = Ok table ->
  get_available_teams league season = (Ok (map r_team table), []).
Proof. intros Hl Hr. unfold get_available_teams. rewrite Hl. simpl. by rewrite Hr. Qed.

Lemma get_available_teams_down league season code e :
  league_mappings !! lower league = Some code ->
  read_league_table code season = Raise e ->
  get_available_teams league season = (Ok [], [ErrorFetchingTeams league e]).
Proof. intros Hl Hr. unfold get_available_teams. rewrite Hl. simpl. by rewrite Hr. Qed.

(** C7.  With the roster of the league fetched, [find_team_match] returns
    what the three steps of the specification give, tried in order and
    stopping at the first that matches: the first roster name equal to
    the query ignoring case; failing that the first roster name that
    contains the query or is contained in it, ignoring case; failing
    that the alias of the query, accepted only when the aliased name is
    in the roster; otherwise nothing. *)
Theorem find_team_match_resolves league team_input season code table :
  league_mappings !! lower league = Some code ->
  read_league_table code season = Ok table ->
  exists r,
    find_team_match league team_input season = (Ok r, [])
    /\ resolves (lower team_input) (map r_team table) r.
Proof.
  intros Hl Hr. unfold find_team_match.
  rewrite (get_available_teams_ok _ _ _ _ Hl Hr). simpl.
  set (roster := map r_team table). set (q := lower team_input).
  destruct roster as [|t0 roster'] eqn:Hroster.
  { exists None. split; [done|].
    apply resolves_not_found; [intros ? [] | intros ? [] | intros ? _ []]. }
  rewrite <- Hroster. clear Hroster.
  destruct (first_team (exact_match q) roster) as [t|] eqn:He.
  { exists (Some t). split; [by destruct roster|].
    destruct (first_team_some _ _ _ He) as (b & a & -> & Ht & Hb).
    eapply resolves_exact; [done| by apply exact_match_iff |].
    intros u Hu. apply exact_match_false; auto. }
  pose proof (first_team_none _ _ He) as Hne.
  destruct (first_team (partial_match q) roster) as [t|] eqn:Hp.
  { exists (Some t). split; [by destruct roster|].
    destruct (first_team_some _ _ _ Hp) as (b & a & Heq & Ht & Hb).
    eapply resolves_partial; [ | exact Heq | by apply partial_match_iff | ].
    - intros u Hu. apply exact_match_false; auto.
    - intros u Hu. apply partial_match_false; auto. }
  pose proof (first_team_none _ _ Hp) as Hnp.
  destruct (team_variations !! q) as [name|] eqn:Hv.
  - case_bool_decide as Hin.
    + exists (Some name). split; [by destruct roster|].
      apply resolves_alias; auto.
      * intros u Hu. apply exact_match_false; auto.
      * intros u Hu. apply partial_match_false; auto.
      * by apply list_elem_of_In.
    + exists None. split; [by destruct roster|].
      apply resolves_not_found.
      * intros u Hu. apply exact_match_false; auto.
      * intros u Hu. apply partial_match_false; auto.
      * intros n Heq Hn. apply Hin. apply list_elem_of_In. congruence.
  - exists None. split; [by destruct roster|].
    apply resolves_not_found; [ | | congruence].
    + intros u Hu. apply exact_match_false; auto.
    + intros u Hu. apply partial_match_false; auto.
Qed.
End Resolution.

(** ** Arithmetic of the model *)

Lemma rbind_ok {A B} (m : res A) (f : A -> res B) b :
  rbind m f = Ok b -> exists a, m = Ok a /\ f a = Ok b.
Proof. destruct m as [a|e]; simpl; [eauto | discriminate]. Qed.

Lemma rbind_not_raising {A B} (m : res A) (f : A -> res B) e :
  m <> Raise e -> (forall a, f a <> Raise e) -> rbind m f <> Raise e.
Proof. intros Hm Hf. destruct m as [a|e']; simpl; [apply Hf | congruence]. Qed.

Lemma Qzero_not_pos q : Qzero q = true -> Qpos q = false.
Proof. unfold Qzero, Qpos. intros H%Z.eqb_eq. rewrite H. reflexivity. Qed.

Lemma Qpos_lt q : Qpos q = true -> (0 < q)%Q.
Proof. unfold Qpos, Qlt. simpl. intros H%Z.ltb_lt. lia. Qed.

Lemma Qpos_not_zero q : Qpos q = true -> Qzero q = false.
Proof. unfold Qzero, Qpos. intros H%Z.ltb_lt. apply Z.eqb_neq. lia. Qed.

Lemma fl_zero_not_gt0 x : fl_is_zero x = true -> fl_gt0 x = false.
Proof. destruct x; simpl; try discriminate. apply Qzero_not_pos. Qed.

Lemma rint_bounds (a b : Z) (q : Q) :
  (inject_Z a <= q <= inject_Z b)%Q -> a <= rint q <= b.
Proof.
  intros [Ha Hb].
  assert (Hf : a <= Qfloor q <= b).
  { split.
    - rewrite <- (Qfloor_Z a). by apply Qfloor_resp_le.
    - rewrite <- (Qfloor_Z b). by apply Qfloor_resp_le. }
  assert (Hup : (0 < q - inject_Z (Qfloor q))%Q -> Qfloor q + 1 <= b).
  { intros Hr.
    assert (Hlt : (inject_Z (Qfloor q) < inject_Z b)%Q) by lra.
    rewrite <- Zlt_Qlt in Hlt. lia. }
  unfold rint.
  destruct (Qcompare_spec (q - inject_Z (Qfloor q)) (1 # 2)) as [He|Hl|Hg].
  - destruct (Z.even (Qfloor q)); [lia|]. split; [lia|]. apply Hup. lra.
  - lia.
  - split; [lia|]. apply Hup. lra.
Qed.

Lemma pow10_pos n : (0 < inject_Z (10 ^ Z.of_nat n))%Q.
Proof.
  replace 0%Q with (inject_Z 0) by reflexivity. rewrite <- Zlt_Qlt.
  apply Z.pow_pos_nonneg; lia.
Qed.

(** Rounding to decimals does not leave an interval with integer ends. *)
Lemma Qround_digits_bounds n (a b : Z) (q : Q) :
  (inject_Z a <= q <= inject_Z b)%Q ->
  (inject_Z a <= Qround_digits n q <= inject_Z b)%Q.
Proof.
  intros [Ha Hb]. unfold Qround_digits.
  set (p := 10 ^ Z.of_nat n). pose proof (pow10_pos n) as Hp. fold p in Hp.
  assert (Hr : a * p <= rint (q * inject_Z p) <= b * p).
  { apply rint_bounds. rewrite !inject_Z_mult. split.
    - apply Qmult_le_compat_r; [done | by apply Qlt_le_weak].
    - apply Qmult_le_compat_r; [done | by apply Qlt_le_weak]. }
  destruct Hr as [Hr1 Hr2].
  rewrite Zle_Qle, inject_Z_mult in Hr1. rewrite Zle_Qle, inject_Z_mult in Hr2.
  rewrite Qred_correct. split.
  - by apply Qle_shift_div_l.
  - by apply Qle_shift_div_r.
Qed.

Lemma clamp_bounds (lo hi x : Q) :
  (lo <= hi)%Q -> (lo <= py_min hi (py_max lo x) <= hi)%Q.
Proof.
  intros H. unfold py_min, py_max.
  destruct (Qlt_le_dec lo x); simpl; destruct (Qlt_le_dec _ hi); simpl.
  all: split; lra.
Qed.

Lemma possession_basic_bounds gd pts :
  (35 <= possession_basic gd pts <= 65)%Q.
Proof.
  unfold possession_basic.
  apply (Qround_digits_bounds 1 35 65). apply clamp_bounds. by compute.
Qed.

Lemma possession_hybrid_bounds gd : (35 <= possession_hybrid gd <= 65)%Q.
Proof. unfold possession_hybrid. apply clamp_bounds. by compute. Qed.

(** ** Derived ratios of a season *)

Section Ratios.
Context {RT : Runtime}.

Lemma int_of_num_no_zero_division n : int_of_num n <> Raise ZeroDivisionError.
Proof. destruct n as [|? []]; discriminate. Qed.

Lemma int_of_cell_no_zero_division c : int_of_cell c <> Raise ZeroDivisionError.
Proof.
  destruct c as [n|s|]; simpl; try discriminate.
  - apply int_of_num_no_zero_division.
  - destruct (int_of_text s); discriminate.
Qed.

Lemma guarded_truediv x mp :
  gt0 mp = true ->
  exists np, truediv x mp = Ok (Flt np (fl_div (to_fl x) (to_fl mp))).
Proof.
  intros Hgt. unfold truediv.
  destruct (is_np x || is_np mp); [by eexists|].
  destruct (fl_is_zero (to_fl mp)) eqn:Hz; [|by eexists].
  apply fl_zero_not_gt0 in Hz. unfold gt0 in Hgt. congruence.
Qed.

Lemma win_percentage_of_no_zero_division mp wins :
  win_percentage_of mp wins <> Raise ZeroDivisionError.
Proof.
  unfold win_percentage_of.
  destruct (gt0 mp) eqn:Hgt; simpl; [|discriminate].
  destruct (num_notna wins); [|discriminate].
  destruct (guarded_truediv wins mp Hgt) as [np ->]. discriminate.
Qed.

Lemma per_game_of_no_zero_division mp goals :
  per_game_of mp goals <> Raise ZeroDivisionError.
Proof.
  unfold per_game_of.
  destruct (gt0 mp) eqn:Hgt; simpl; [|discriminate].
  destruct (num_notna goals); [|discriminate].
  destruct (guarded_truediv goals mp Hgt) as [np ->]. discriminate.
Qed.

Lemma season_stats_no_zero_division season league row :
  season_stats season league row <> Raise ZeroDivisionError.
Proof.
  unfold season_stats.
  repeat (apply rbind_not_raising; [|intros ?]);
    try discriminate;
    try apply win_percentage_of_no_zero_division;
    try apply per_game_of_no_zero_division;
    match goal with
    | |- (if ?b then _ else _) <> _ => destruct b; try discriminate
    end;
    auto using int_of_num_no_zero_division, int_of_cell_no_zero_division.
Qed.

Lemma win_percentage_of_zero mp wins :
  gt0 mp = false -> win_percentage_of mp wins = Ok (Int false 0).
Proof. intros H. unfold win_percentage_of. by rewrite H. Qed.

Lemma per_game_of_zero mp goals :
  gt0 mp = false -> per_game_of mp goals = Ok (Int false 0).
Proof. intros H. unfold per_game_of. by rewrite H. Qed.

(** What [season_stats] returns, field by field. *)
Lemma season_stats_ok season league row st :
  season_stats season league row = Ok st ->
  let mp := to_numeric (r_MP row) in
  Season st = season /\ Team st = r_team row
  /\ (if num_notna mp then int_of_num mp else Ok 0) = Ok (Matches_Played st)
  /\ (if notna (r_W row) then int_of_cell (r_W row) else Ok 0) = Ok (Wins st)
  /\ (if notna (r_D row) then int_of_cell (r_D row) else Ok 0) = Ok (Draws st)
  /\ (if notna (r_L row) then int_of_cell (r_L row) else Ok 0) = Ok (Losses st)
  /\ (if num_notna (to_numeric (r_GF row))
      then int_of_num (to_numeric (r_GF row)) else Ok 0) = Ok (Goals_For st)
  /\ (if num_notna (to_numeric (r_GA row))
      then int_of_num (to_numeric (r_GA row)) else Ok 0)
     = Ok (Goals_Against st)
  /\ (if notna (r_GD row) then int_of_cell (r_GD row) else Ok 0)
     = Ok (Goal_Difference st)
  /\ (if notna (r_Pts row) then int_of_cell (r_Pts row) else Ok 0)
     = Ok (Points st)
  /\ win_percentage_of mp (to_numeric (r_W row)) = Ok (Win_Percentage st)
  /\ per_game_of mp (to_numeric (r_GF row)) = Ok (Goals_Per_Game st)
  /\ per_game_of mp (to_numeric (r_GA row)) = Ok (Goals_Against_Per_Game st).
Proof.
  unfold season_stats. intros H.
  repeat match type of H with
         | rbind ?m _ = Ok _ =>
             let a := fresh "a" in
             let Ha := fresh "Ha" in
             apply rbind_ok in H; destruct H as (a & Ha & H)
         end.
  injection H as <-. simpl. by repeat split.
Qed.

(** C5.  When the matches played of a row are zero, the win percentage,
    the goals per game and the goals against per game are all exactly 0;
    and for no row at all does building the season's record raise a
    division by zero. *)
Theorem zero_matches_played season league row :
  fl_is_zero (to_fl (to_numeric (r_MP row))) = true ->
  let mp := to_numeric (r_MP row) in
  (win_percentage_of mp (to_numeric (r_W row)) = Ok (Int false 0)
   /\ per_game_of mp (to_numeric (r_GF row)) = Ok (Int false 0)
   /\ per_game_of mp (to_numeric (r_GA row)) = Ok (Int false 0))
  /\ (forall st, season_stats season league row = Ok st ->
        Win_Percentage st = Int false 0
        /\ Goals_Per_Game st = Int false 0
        /\ Goals_Against_Per_Game st = Int false 0)
  /\ (forall season' league' row',
        season_stats season' league' row' <> Raise ZeroDivisionError).
Proof.
  intros Hz mp. apply fl_zero_not_gt0 in Hz. fold (gt0 mp) in Hz.
  assert (Hw := win_percentage_of_zero mp (to_numeric (r_W row)) Hz).
  assert (Hf := per_game_of_zero mp (to_numeric (r_GF row)) Hz).
  assert (Ha := per_game_of_zero mp (to_numeric (r_GA row)) Hz).
  split; [done|]. split; [|apply season_stats_no_zero_division].
  intros st Hst. apply season_stats_ok in Hst.
  destruct Hst as (_ & _ & _ & _ & _ & _ & _ & _ & _ & _ & H1 & H2 & H3).
  fold mp in H1, H2, H3. rewrite Hw in H1. rewrite Hf in H2. rewrite Ha in H3.
  by inversion H1; inversion H2; inversion H3.
Qed.

Lemma win_percentage_of_range mp wins v w m :
  win_percentage_of mp wins = Ok v ->
  to_fl wins = Fin w -> to_fl mp = Fin m ->
  (0 <= w <= m)%Q ->
  within 0 100 (to_fl v).
Proof.
  unfold win_percentage_of. intros H Hw Hm [Hw0 Hwm].
  destruct (gt0 mp) eqn:Hgt; simpl in H.
  2: { injection H as <-. simpl. split; by compute. }
  destruct (num_notna wins).
  2: { injection H as <-. simpl. split; by compute. }
  destruct (guarded_truediv wins mp Hgt) as [np Hdiv].
  rewrite Hdiv in H. simpl in H. injection H as <-.
  unfold gt0 in Hgt. rewrite Hw, Hm in *. simpl in Hgt.
  pose proof (Qpos_lt _ Hgt) as Hpos.
  simpl. rewrite (Qpos_not_zero _ Hgt). simpl.
  apply (Qround_digits_bounds 1 0 100).
  rewrite !Qred_correct.
  assert (H0 : (0 <= w / m)%Q).
  { apply Qle_shift_div_l; [done|]. by rewrite Qmult_0_l. }
  assert (H1 : (w / m <= 1)%Q).
  { apply Qle_shift_div_r; [done|]. by rewrite Qmult_1_l. }
  set (r := (w / m)%Q) in *.
  change (inject_Z 100) with 100%Q. change (inject_Z 0) with 0%Q.
  split; lra.
Qed.
End Ratios.

(** ** Ranges of the win percentage and of the estimated possession *)

Section Ranges.
Context {RT : Runtime}.

Lemma enhance_possession_range nz i st :
  within 35 65 (Avg_Possession (enhance nz i st)).
Proof. simpl. apply possession_basic_bounds. Qed.

Lemma fill_row_possession row filled :
  fill_row row = Ok filled ->
  notna (m_Avg_Possession row) = false ->
  m_Avg_Possession filled
  = CNum (Flt true (Fin (possession_hybrid (Goal_Difference (m_basic row))))).
Proof.
  unfold fill_row. intros H Hna.
  apply rbind_ok in H. destruct H as (sot & _ & H). injection H as <-.
  simpl. unfold fillna. by rewrite Hna.
Qed.

Lemma int_of_whole a (w : Z) :
  to_fl a = Fin (inject_Z w) -> num_notna a = true /\ int_of_num a = Ok w.
Proof.
  destruct a as [np z|np [q| |]]; cbn; try done.
  - by intros [= ->].
  - intros [= ->]. split; [done|]. unfold Qtrunc. cbn.
    by rewrite Z.quot_1_r.
Qed.

(** C6 (amended).  The win percentage of a computed season row is the
    rounded quotient of the numeric values of the W and MP cells of the
    provider's row, as [pd.to_numeric] reads them.  It is 0 when the W
    cell holds no number or the MP value is not positive.  It lies in
    [0, 100] whenever those two values satisfy 0 <= W <= MP; for cells
    that hold whole numbers these values are the wins and the matches
    played of the record, so the bound holds whenever the record's wins
    lie between zero and its matches played.  Every estimated possession
    value lies in [35, 65], in the enhanced table as in the fill of the
    hybrid table. *)
Theorem win_percentage_and_possession_ranges season league row st :
  season_stats season league row = Ok st ->
  (num_notna (to_numeric (r_W row)) = false
   \/ gt0 (to_numeric (r_MP row)) = false ->
   Win_Percentage st = Int false 0)
  /\ (forall w m,
        to_fl (to_numeric (r_W row)) = Fin w ->
        to_fl (to_numeric (r_MP row)) = Fin m ->
        (0 <= w <= m)%Q ->
        within 0 100 (to_fl (Win_Percentage st)))
  /\ (forall a b (w m : Z),
        r_W row = CNum a -> r_MP row = CNum b ->
        to_fl a = Fin (inject_Z w) -> to_fl b = Fin (inject_Z m) ->
        Wins st = w /\ Matches_Played st = m
        /\ (0 <= Wins st <= Matches_Played st ->
            within 0 100 (to_fl (Win_Percentage st))))
  /\ (forall nz i (any : season_stat),
        within 35 65 (Avg_Possession (enhance nz i any)))
  /\ (forall merged filled,
        fill_row merged = Ok filled ->
        notna (m_Avg_Possession merged) = false ->
        exists p, m_Avg_Possession filled = CNum (Flt true (Fin p))
                  /\ (35 <= p <= 65)%Q).
Proof.
  intros Hst. apply season_stats_ok in Hst. cbn zeta in Hst.
  destruct Hst as (_ & _ & Hmp & Hw & _ & _ & _ & _ & _ & _ & Hwp & _).
  assert (Hrange : forall w m,
             to_fl (to_numeric (r_W row)) = Fin w ->
             to_fl (to_numeric (r_MP row)) = Fin m ->
             (0 <= w <= m)%Q ->
             within 0 100 (to_fl (Win_Percentage st))).
  { intros w m. by apply win_percentage_of_range. }
  split; [|split; [exact Hrange|split; [|split]]].
  - unfold win_percentage_of in Hwp. intros [Hna|Hgt].
    + rewrite Hna, andb_false_r in Hwp. by injection Hwp as <-.
    + rewrite Hgt in Hwp. by injection Hwp as <-.
  - intros a b w m Ha Hb Hfa Hfb.
    rewrite Ha in Hw. rewrite Ha, Hb in Hrange. rewrite Hb in Hmp.
    cbn [to_numeric notna int_of_cell] in *.
    destruct (int_of_whole a w Hfa) as [Hna Hia].
    destruct (int_of_whole b m Hfb) as [Hnb Hib].
    rewrite Hna, Hia in Hw. rewrite Hnb, Hib in Hmp.
    injection Hw as Hw. injection Hmp as Hmp.
    split; [done|]. split; [done|]. rewrite <- Hw, <- Hmp.
    intros [H0 H1]. apply (Hrange _ _ Hfa Hfb).
    split; [by rewrite Zle_Qle in H0 | by rewrite Zle_Qle in H1].
  - intros. apply enhance_possession_range.
  - intros merged filled Hf Hna. eexists. split.
    + by apply fill_row_possession.
    + apply possession_hybrid_bounds.
Qed.
End Ranges.

(** ** Which seasons enter the table *)

Section Seasons.
Context {RT : Runtime} {PV : Provider}.

Lemma int_converts_alt c :
  int_converts c = is_ok (if notna c then int_of_cell c else Ok 0).
Proof. unfold int_converts. by destruct (notna c). Qed.

Lemma numeric_converts_alt c :
  numeric_converts c
  = is_ok (if num_notna (to_numeric c) then int_of_num (to_numeric c)
           else Ok 0).
Proof. unfold numeric_converts. by destruct (num_notna _). Qed.

Lemma win_percentage_of_returns mp wins :
  exists v, win_percentage_of mp wins = Ok v.
Proof.
  unfold win_percentage_of.
  destruct (gt0 mp) eqn:Hgt; simpl; [|by eexists].
  destruct (num_notna wins); [|by eexists].
  destruct (guarded_truediv wins mp Hgt) as [np ->]. by eexists.
Qed.

Lemma per_game_of_returns mp goals : exists v, per_game_of mp goals = Ok v.
Proof.
  unfold per_game_of.
  destruct (gt0 mp) eqn:Hgt; simpl; [|by eexists].
  destruct (num_notna goals); [|by eexists].
  destruct (guarded_truediv goals mp Hgt) as [np ->]. by eexists.
Qed.

(** The record of a season is built exactly when its row converts. *)
Lemma season_stats_converts season league row :
  is_ok (season_stats season league row) = converts row.
Proof.
  unfold converts. rewrite !int_converts_alt, !numeric_converts_alt.
  unfold season_stats.
  destruct (win_percentage_of_returns (to_numeric (r_MP row))
              (to_numeric (r_W row))) as [v1 ->].
  destruct (per_game_of_returns (to_numeric (r_MP row))
              (to_numeric (r_GF row))) as [v2 ->].
  destruct (per_game_of_returns (to_numeric (r_MP row))
              (to_numeric (r_GA row))) as [v3 ->].
  repeat match goal with
         | |- context [rbind ?m _] =>
             match m with
             | Ok _ => fail 1
             | _ => destruct m; simpl; [|by rewrite ?andb_false_r]
             end
         end.
  reflexivity.
Qed.

Lemma fetch_season_spec league_code league name season :
  fetch_season league_code league name season =
  match read_league_table league_code season with
  | Raise e => (Ok None, [SeasonStart season; ErrorFetchingSeason season e])
  | Ok league_table =>
      match rows_of_team name league_table with
      | [] => (Ok None, [SeasonStart season; TeamNotInSeason name season])
      | team_row :: _ =>
          match season_stats season league team_row with
          | Ok stats => (Ok (Some stats), [SeasonStart season])
          | Raise e =>
              (Ok None, [SeasonStart season; ErrorFetchingSeason season e])
          end
      end
  end.
Proof.
  unfold fetch_season.
  destruct (read_league_table league_code season) as [table|e]; simpl; [|done].
  destruct (rows_of_team name table) as [|row rest]; simpl; [done|].
  by destruct (season_stats season league row).
Qed.

Lemma fetch_season_record league_code league name season :
  fst (fetch_season league_code league name season)
  = Ok (season_record league_code league name season).
Proof.
  rewrite fetch_season_spec. unfold season_record, matching_row.
  destruct (read_league_table league_code season) as [table|e]; [|done].
  destruct (rows_of_team name table) as [|row rest]; simpl; [done|].
  by destruct (season_stats season league row).
Qed.

Lemma fetch_seasons_spec league_code league name todo team_stats :
  fst (fetch_seasons league_code league name todo team_stats)
  = Ok (team_stats ++ omap (season_record league_code league name) todo).
Proof.
  revert team_stats. induction todo as [|season rest IH]; intros acc; simpl.
  { by rewrite app_nil_r. }
  pose proof (fetch_season_record league_code league name season) as Hs.
  destruct (fetch_season league_code league name season) as [r out].
  simpl in Hs. subst r. simpl.
  specialize (IH (match season_record league_code league name season with
                  | Some stats => acc ++ [stats]
                  | None => acc
                  end)).
  destruct (fetch_seasons _ _ _ rest _) as [r' out']. simpl in *. subst r'.
  destruct (season_record league_code league name season); simpl; [|done].
  by rewrite <- app_assoc.
Qed.

Lemma season_record_included league_code league name season :
  is_Some (season_record league_code league name season)
  <-> included league_code name season = true.
Proof.
  unfold season_record, included.
  destruct (matching_row league_code name season) as [row|].
  - rewrite <- (season_stats_converts season league row).
    destruct (season_stats season league row); simpl; split;
      try done; intros []; done.
  - split; [intros []; done | done].
Qed.

Lemma season_record_season league_code league name season st :
  season_record league_code league name season = Some st ->
  Season st = season.
Proof.
  unfold season_record.
  destruct (matching_row _ _ _) as [row|]; [|done].
  destruct (season_stats season league row) eqn:Hs; [|done].
  intros [= <-]. by apply season_stats_ok in Hs as (? & _).
Qed.

Lemma seasons_of_records league_code league name todo :
  map Season (omap (season_record league_code league name) todo)
  = List.filter (included league_code name) todo.
Proof.
  induction todo as [|season rest IH]; simpl; [done|].
  pose proof (season_record_included league_code league name season) as Hi.
  destruct (season_record league_code league name season) as [st|] eqn:Hr.
  - rewrite (proj1 Hi) by eauto. simpl.
    f_equal; [by eapply season_record_season | exact IH].
  - destruct (included league_code name season); [|done].
    destruct (proj2 Hi eq_refl) as [? [=]].
Qed.
End Seasons.

(** ** No NaN in the columns of the report *)

Lemma num_notna_isnan x : fl_isnan (to_fl x) = negb (num_notna x).
Proof. by destruct x as [|? []]. Qed.

Lemma fl_div_not_nan x y :
  fl_isnan x = false -> fl_gt0 y = true -> (forall n, y <> Inf n) ->
  fl_isnan (fl_div x y) = false.
Proof.
  destruct x as [a|n|], y as [b|m|]; simpl; try done.
  - intros _ Hb _. by rewrite (Qpos_not_zero _ Hb).
  - intros _ _ H. by destruct (H m).
Qed.

Lemma fl_mul_const_not_nan x q :
  fl_isnan x = false -> Qzero q = false -> fl_isnan (fl_mul x (Fin q)) = false.
Proof. destruct x as [a|n|]; simpl; try done. by intros _ ->. Qed.

Lemma fl_round_isnan n x : fl_isnan (fl_round n x) = fl_isnan x.
Proof. by destruct x. Qed.

Lemma fl_add_fin_isnan x q : fl_isnan (fl_add x (Fin q)) = fl_isnan x.
Proof. by destruct x. Qed.

Lemma fl_clip_isnan lo hi x : fl_isnan (fl_clip lo hi x) = fl_isnan x.
Proof.
  destruct x as [q|[]|]; simpl; try done.
  destruct (Qlt_le_dec q lo); [done|]. by destruct (Qlt_le_dec hi q).
Qed.

Lemma converted_not_infinite mp z :
  (if num_notna mp then int_of_num mp else Ok 0) = Ok z ->
  forall n, to_fl mp <> Inf n.
Proof. by destruct mp as [|? [| |]]. Qed.

Lemma win_percentage_of_not_nan mp wins z v :
  (if num_notna mp then int_of_num mp else Ok 0) = Ok z ->
  win_percentage_of mp wins = Ok v ->
  fl_isnan (to_fl v) = false.
Proof.
  intros Hmp. unfold win_percentage_of.
  destruct (gt0 mp) eqn:Hgt; simpl; [|by intros [= <-]].
  destruct (num_notna wins) eqn:Hw; [|by intros [= <-]].
  destruct (guarded_truediv wins mp Hgt) as [np ->].
  cbn [rbind]. intros [= <-].
  cbn [to_fl]. rewrite fl_round_isnan.
  apply fl_mul_const_not_nan; [|done].
  apply fl_div_not_nan; [|done|by eapply converted_not_infinite].
  by rewrite num_notna_isnan, Hw.
Qed.

Lemma per_game_of_not_nan mp goals z v :
  (if num_notna mp then int_of_num mp else Ok 0) = Ok z ->
  per_game_of mp goals = Ok v ->
  fl_isnan (to_fl v) = false.
Proof.
  intros Hmp. unfold per_game_of.
  destruct (gt0 mp) eqn:Hgt; simpl; [|by intros [= <-]].
  destruct (num_notna goals) eqn:Hg; [|by intros [= <-]].
  destruct (guarded_truediv goals mp Hgt) as [np ->].
  cbn [rbind]. intros [= <-].
  cbn [to_fl]. rewrite fl_round_isnan.
  apply fl_div_not_nan; [|done|by eapply converted_not_infinite].
  by rewrite num_notna_isnan, Hg.
Qed.

Lemma season_stats_ratios_defined `{RT : Runtime} season league row st :
  season_stats season league row = Ok st -> ratios_defined st.
Proof.
  intros H. apply season_stats_ok in H.
  destruct H as (_ & _ & Hmp & _ & _ & _ & _ & _ & _ & _ & H1 & H2 & H3).
  repeat split.
  - eapply win_percentage_of_not_nan; eauto.
  - eapply per_game_of_not_nan; eauto.
  - eapply per_game_of_not_nan; eauto.
Qed.

Lemma shots_estimate_not_nan gpg eps :
  fl_isnan (to_fl gpg) = false -> fl_isnan (shots_estimate gpg eps) = false.
Proof.
  intros H. unfold shots_estimate.
  rewrite fl_clip_isnan, fl_round_isnan, fl_add_fin_isnan.
  by apply fl_mul_const_not_nan.
Qed.

Lemma filter_all {A} (p : A -> bool) (l : list A) :
  Forall (fun x => p x = true) l -> List.filter p l = l.
Proof. induction 1 as [|x l Hx _ IH]; simpl; [done|]. by rewrite Hx, IH. Qed.

(** Over a column without NaN the mean is the sum over the number of
    entries. *)
Lemma mean_defined (xs : list fl) :
  xs <> [] -> Forall (fun x => fl_isnan x = false) xs ->
  mean xs = fl_div (fl_sum xs) (of_int (Z.of_nat (length xs))).
Proof.
  intros Hne Hall. unfold mean. rewrite filter_all.
  - by destruct xs.
  - eapply Forall_impl; [exact Hall|]. by intros x ->.
Qed.

Lemma sublist_filter_bool {A} (p : A -> bool) (l : list A) :
  sublist (List.filter p l) l.
Proof.
  induction l as [|x l IH]; simpl; [constructor|].
  destruct (p x); by constructor.
Qed.

Lemma map_basic_imap (g : nat -> season_stat -> enhanced_stat) rows :
  (forall i st, basic (g i st) = st) -> map basic (imap g rows) = rows.
Proof.
  revert g. induction rows as [|st rows IH]; intros g Hg; simpl; [done|].
  rewrite Hg. f_equal. apply IH. intros i st'. apply Hg.
Qed.

Lemma Forall_imap_enhance (P : enhanced_stat -> Prop) nz rows :
  (forall i st, In st rows -> P (enhance nz i st)) ->
  Forall P (imap (enhance nz) rows).
Proof.
  generalize (enhance nz). intros g.
  revert g. induction rows as [|st rows IH]; intros g Hg; simpl; [constructor|].
  constructor; [apply Hg; by left|].
  apply IH. intros i st' Hin. apply Hg. by right.
Qed.

(** ** The table of a team *)

Section TeamTable.
Context {RT : Runtime} {PV : Provider}.

Lemma get_team_league_table_stats_found league team code name out0 :
  league_mappings !! lower league = Some code ->
  find_team_match league team "2024/2025" = (Ok (Some name), out0) ->
  name <> "" ->
  fst (get_team_league_table_stats league team)
  = match omap (season_record code league name) seasons with
    | [] => Raise (NoDataFound name league)
    | rows => Ok rows
    end.
Proof.
  intros Hl Hf Hne. unfold get_team_league_table_stats. rewrite Hl, Hf.
  destruct name as [|c s]; [done|].
  cbn [bind print].
  pose proof (fetch_seasons_spec code league (String c s) seasons []) as Hs.
  destruct (fetch_seasons code league (String c s) seasons []) as [r out].
  cbn [fst] in Hs. subst r. cbn [app].
  by destruct (omap _ seasons).
Qed.

(** C3 (amended).  When the roster call of a known league raises, the
    failure is swallowed by [get_available_teams], which answers an empty
    roster; resolution then finds nothing and the lookup fails with the
    same "team not found" error as for an unknown team, carrying an empty
    roster.  The provider's exception only appears in the printed
    lines. *)
Theorem roster_failure_becomes_team_not_found league team code e :
  league_mappings !! lower league = Some code ->
  read_league_table code "2024/2025" = Raise e ->
  get_available_teams league "2024/2025"
    = (Ok [], [ErrorFetchingTeams league e])
  /\ find_team_match league team "2024/2025"
     = (Ok None, [ErrorFetchingTeams league e])
  /\ get_team_league_table_stats league team
     = (Raise (TeamNotFound team league []),
        [ErrorFetchingTeams league e; ErrorFetchingTeams league e]).
Proof.
  intros Hl Hr.
  pose proof (get_available_teams_down _ _ _ _ Hl Hr) as Ha.
  assert (Hf : find_team_match league team "2024/2025"
               = (Ok None, [ErrorFetchingTeams league e])).
  { unfold find_team_match. by rewrite Ha. }
  repeat split; [done..|].
  unfold get_team_league_table_stats. rewrite Hl, Hf. cbn [bind].
  by rewrite Ha.
Qed.
End TeamTable.

(** ** The report over the seasons that are included *)

Section ReportProperties.
Context {RT : Runtime} {PV : Provider}.

Lemma records_ratios_defined code league name todo st :
  In st (omap (season_record code league name) todo) -> ratios_defined st.
Proof.
  intros Hin. apply list_elem_of_In, list_elem_of_omap in Hin.
  destruct Hin as (season & _ & Hrec). unfold season_record in Hrec.
  destruct (matching_row code name season) as [row|]; [|done].
  destruct (season_stats season league row) eqn:Hs; [|done].
  injection Hrec as <-. by eapply season_stats_ratios_defined.
Qed.

Lemma display_team_stats_ok league team nz rows out :
  get_team_league_table_stats league team = (Ok rows, out) ->
  display_team_stats league team nz
  = (Ok (Some (imap (enhance nz) rows)),
     out ++ [SummaryStatistics (summary_stats (imap (enhance nz) rows))]).
Proof.
  intros H. unfold display_team_stats, get_enhanced_team_stats.
  rewrite H. cbn [bind ret print try_except]. by rewrite !app_nil_r.
Qed.

(** C2 (amended).  Let [name] be the team the query resolves to, and call
    a season included when the provider's call for it returns a table
    with a row of that name whose cells convert.  When at least one of
    the five seasons is included, the table has exactly one record per
    included season, in the order of the season list (newest first); a
    season without a row of the team is not in it; and each of the seven
    summary means is the sum of its column over those records divided by
    their number. *)
Theorem report_of_included_seasons league team code name out0 nz :
  league_mappings !! lower league = Some code ->
  find_team_match league team "2024/2025" = (Ok (Some name), out0) ->
  name <> "" ->
  let hits := List.filter (included code name) seasons in
  (1 <= length hits)%nat ->
  exists rows out,
    get_team_league_table_stats league team = (Ok rows, out)
    /\ map Season rows = hits
    /\ length rows = length hits
    /\ sublist (map Season rows) seasons
    /\ (forall season, matching_row code name season = None ->
          ~ In season (map Season rows))
    /\ let stats_df := imap (enhance nz) rows in
       let sm := summary_stats stats_df in
       let over_k x := fl_div (fl_sum x) (of_int (Z.of_nat (length hits))) in
       display_team_stats league team nz
         = (Ok (Some stats_df), out ++ [SummaryStatistics sm])
       /\ map basic stats_df = rows
       /\ avg_points sm
          = over_k (map (fun r => of_int (Points (basic r))) stats_df)
       /\ avg_goals_per_game sm
          = over_k (map (fun r => to_fl (Goals_Per_Game (basic r))) stats_df)
       /\ avg_goals_against_per_game sm
          = over_k (map (fun r => to_fl (Goals_Against_Per_Game (basic r)))
                        stats_df)
       /\ avg_goal_difference sm
          = over_k (map (fun r => of_int (Goal_Difference (basic r)))
                        stats_df)
       /\ avg_win_percentage sm
          = over_k (map (fun r => to_fl (Win_Percentage (basic r))) stats_df)
       /\ avg_possession sm = over_k (map Avg_Possession stats_df)
       /\ avg_shots_per_game sm = over_k (map Shots_Per_Game stats_df).
Proof.
  intros Hl Hf Hne hits Hk.
  pose proof (get_team_league_table_stats_found _ _ _ _ _ Hl Hf Hne) as Hg.
  pose proof (seasons_of_records code league name seasons) as Hseasons.
  fold hits in Hseasons.
  set (rows := omap (season_record code league name) seasons) in *.
  assert (Hlen : length rows = length hits).
  { by rewrite <- Hseasons, length_map. }
  assert (Hrows : rows <> []).
  { intros E. rewrite E in Hlen. simpl in Hlen. lia. }
  assert (Hg' : fst (get_team_league_table_stats league team) = Ok rows).
  { rewrite Hg. by destruct rows. }
  clear Hg.
  destruct (get_team_league_table_stats league team) as [r out] eqn:Hrun.
  cbn [fst] in Hg'. subst r.
  exists rows, out.
  split; [done|]. split; [done|]. split; [done|].
  split; [rewrite Hseasons; apply sublist_filter_bool|].
  split.
  { intros season Hnone Hin. rewrite Hseasons in Hin.
    apply filter_In in Hin as [_ Hin].
    unfold included in Hin. by rewrite Hnone in Hin. }
  intros stats_df sm over_k.
  assert (Hbasic : map basic stats_df = rows).
  { by apply map_basic_imap. }
  assert (Hlen' : length stats_df = length hits).
  { by rewrite <- Hlen, <- Hbasic, length_map. }
  assert (Hne' : stats_df <> []).
  { intros E. rewrite E in Hbasic. simpl in Hbasic. by apply Hrows. }
  assert (Hdef : Forall (fun r => ratios_defined (basic r)) stats_df).
  { apply Forall_imap_enhance. intros i st Hin. simpl.
    by eapply records_ratios_defined. }
  assert (Hmean : forall (col : enhanced_stat -> fl),
             Forall (fun r => fl_isnan (col r) = false) stats_df ->
             mean (map col stats_df) = over_k (map col stats_df)).
  { intros col Hcol. rewrite mean_defined.
    - unfold over_k. by rewrite length_map, Hlen'.
    - intros E. apply map_eq_nil in E. by apply Hne'.
    - by apply Forall_map. }
  split; [by apply display_team_stats_ok|]. split; [done|].
  unfold sm, summary_stats. cbn [avg_points avg_goals_per_game
    avg_goals_against_per_game avg_goal_difference avg_win_percentage
    avg_possession avg_shots_per_game].
  repeat split; apply Hmean.
  - by apply Forall_forall.
  - eapply Forall_impl; [exact Hdef|]. by intros r (_ & ? & _).
  - eapply Forall_impl; [exact Hdef|]. by intros r (_ & _ & ?).
  - by apply Forall_forall.
  - eapply Forall_impl; [exact Hdef|]. by intros r (? & _).
  - apply Forall_imap_enhance. by intros.
  - apply Forall_imap_enhance. intros i st Hin. simpl.
    apply shots_estimate_not_nan.
    by eapply records_ratios_defined.
Qed.
End ReportProperties.

(** ** Cells that are not numbers *)

Section Cells.
Context {RT : Runtime} {PV : Provider}.

Lemma unparseable_converts c :
  unparseable c -> numeric_converts c = true.
Proof. unfold unparseable, numeric_converts. by intros ->. Qed.

Lemma rejected_text_does_not_convert c :
  rejected_text c -> int_converts c = false.
Proof. intros (s & -> & Hs). unfold int_converts. simpl. by rewrite Hs. Qed.

Lemma fetch_season_of_row code league name season row :
  matching_row code name season = Some row ->
  fetch_season code league name season
  = match season_stats season league row with
    | Ok stats => (Ok (Some stats), [SeasonStart season])
    | Raise e => (Ok None, [SeasonStart season; ErrorFetchingSeason season e])
    end.
Proof.
  unfold matching_row. rewrite fetch_season_spec.
  destruct (read_league_table code season) as [table|e]; [|done].
  destruct (rows_of_team name table) as [|r rest]; [done|].
  by intros [= ->].
Qed.

(** C4 (amended).  In the columns that are coerced with [pd.to_numeric]
    (matches played, goals for, goals against) a value that is not a
    number converts and becomes zero; in every column a missing value
    becomes zero.  The season is entered in the table exactly when all
    its cells convert; a text that [int()] rejects in the draws, losses,
    goal difference or points column does not convert, and its season is
    skipped by the handler of the loop, which prints the error. *)
Theorem cells_that_are_not_numbers season league row :
  (unparseable (r_MP row) -> numeric_converts (r_MP row) = true)
  /\ (unparseable (r_GF row) -> numeric_converts (r_GF row) = true)
  /\ (unparseable (r_GA row) -> numeric_converts (r_GA row) = true)
  /\ (forall st, season_stats season league row = Ok st ->
        (unparseable (r_MP row) -> Matches_Played st = 0)
        /\ (unparseable (r_GF row) -> Goals_For st = 0)
        /\ (unparseable (r_GA row) -> Goals_Against st = 0)
        /\ (notna (r_W row) = false -> Wins st = 0)
        /\ (notna (r_D row) = false -> Draws st = 0)
        /\ (notna (r_L row) = false -> Losses st = 0)
        /\ (notna (r_GD row) = false -> Goal_Difference st = 0)
        /\ (notna (r_Pts row) = false -> Points st = 0))
  /\ (rejected_text (r_D row) \/ rejected_text (r_L row)
      \/ rejected_text (r_GD row) \/ rejected_text (r_Pts row) ->
      converts row = false)
  /\ (forall code name,
        matching_row code name season = Some row ->
        (converts row = true ->
         exists st, fetch_season code league name season
                    = (Ok (Some st), [SeasonStart season]))
        /\ (converts row = false ->
            exists e, fetch_season code league name season
                      = (Ok None, [SeasonStart season;
                                   ErrorFetchingSeason season e]))).
Proof.
  split; [apply unparseable_converts|].
  split; [apply unparseable_converts|].
  split; [apply unparseable_converts|].
  split; [|split].
  - intros st Hst. apply season_stats_ok in Hst. cbn zeta in Hst.
    destruct Hst as (_ & _ & Hmp & Hw & Hd & Hl & Hgf & Hga & Hgd & Hp & _).
    unfold unparseable.
    repeat split; intros Hna; rewrite Hna in *; congruence.
  - unfold converts.
    intros [H|[H|[H|H]]]; apply rejected_text_does_not_convert in H;
      rewrite H; by rewrite ?andb_false_r.
  - intros code name Hrow.
    rewrite (fetch_season_of_row _ _ _ _ _ Hrow).
    rewrite <- (season_stats_converts season league row).
    destruct (season_stats season league row); simpl;
      split; intros; try done; by eexists.
Qed.

(** C8 (amended).  Every record takes its goals for, goals against and
    goal difference each from the provider's own column, converted on its
    own (numbers written as text and floats included; a missing value
    becomes zero), and so do the matches played, wins, draws and losses.
    The goal difference is never compared with goals for minus goals
    against, nor the matches played with wins, draws and losses: putting
    any other value that converts in the goal-difference cell gives the
    same record but for its goal difference, so a mismatch is neither
    flagged nor a failure, and the season prints nothing but its progress
    line. *)
Theorem goal_difference_is_copied season league row st :
  season_stats season league row = Ok st ->
  int_or_zero (r_GD row) = Ok (Goal_Difference st)
  /\ numeric_int_or_zero (r_GF row) = Ok (Goals_For st)
  /\ numeric_int_or_zero (r_GA row) = Ok (Goals_Against st)
  /\ numeric_int_or_zero (r_MP row) = Ok (Matches_Played st)
  /\ int_or_zero (r_W row) = Ok (Wins st)
  /\ int_or_zero (r_D row) = Ok (Draws st)
  /\ int_or_zero (r_L row) = Ok (Losses st)
  /\ (forall np gd, r_GD row = CNum (Int np gd) -> Goal_Difference st = gd)
  /\ (forall np gf, to_numeric (r_GF row) = Int np gf -> Goals_For st = gf)
  /\ (forall np ga,
        to_numeric (r_GA row) = Int np ga -> Goals_Against st = ga)
  /\ (forall gd' z,
        int_or_zero gd' = Ok z ->
        season_stats season league
          {| r_team := r_team row; r_MP := r_MP row; r_W := r_W row;
             r_D := r_D row; r_L := r_L row;
             r_GF := r_GF row; r_GA := r_GA row;
             r_GD := gd'; r_Pts := r_Pts row |}
        = Ok {| Season := Season st; League := League st; Team := Team st;
                Matches_Played := Matches_Played st; Wins := Wins st;
                Draws := Draws st; Losses := Losses st;
                Goals_For := Goals_For st;
                Goals_Against := Goals_Against st;
                Goal_Difference := z; Points := Points st;
                Win_Percentage := Win_Percentage st;
                Goals_Per_Game := Goals_Per_Game st;
                Goals_Against_Per_Game := Goals_Against_Per_Game st |})
  /\ (forall code name,
        matching_row code name season = Some row ->
        fetch_season code league name season
        = (Ok (Some st), [SeasonStart season])).
Proof.
  intros Hst.
  pose proof (season_stats_ok _ _ _ _ Hst) as Hok. cbn zeta in Hok.
  destruct Hok as (_ & _ & Hmp & Hw & Hd & Hl & Hgf & Hga & Hgd & _).
  split; [exact Hgd|]. split; [exact Hgf|]. split; [exact Hga|].
  split; [exact Hmp|]. split; [exact Hw|]. split; [exact Hd|].
  split; [exact Hl|]. split; [|split; [|split; [|split]]].
  - intros np gd Hcell. rewrite Hcell in Hgd. cbn in Hgd. congruence.
  - intros np gf Hcell. rewrite Hcell in Hgf. cbn in Hgf. congruence.
  - intros np ga Hcell. rewrite Hcell in Hga. cbn in Hga. congruence.
  - intros gd' z Hz. unfold int_or_zero in Hz.
    clear Hmp Hw Hd Hl Hgf Hga Hgd. unfold season_stats in Hst.
    repeat match type of Hst with
           | rbind ?m _ = Ok _ =>
               let a := fresh "a" in
               let Ha := fresh "Ha" in
               apply rbind_ok in Hst; destruct Hst as (a & Ha & Hst)
           end.
    injection Hst as <-. unfold season_stats.
    cbn [r_team r_MP r_W r_D r_L r_GF r_GA r_GD r_Pts].
    rewrite Ha, Ha0, Ha1, Ha2, Ha3, Ha4, Hz, Ha6, Ha7, Ha8, Ha9.
    reflexivity.
  - intros code name Hrow. rewrite (fetch_season_of_row _ _ _ _ _ Hrow).
    by rewrite Hst.
Qed.
End Cells.

(** ** The FBref table and the merge *)

Lemma season_labels_differ s t : In s fbref_seasons -> In t seasons -> s <> t.
Proof.
  unfold fbref_seasons, seasons. simpl.
  intros Hs Ht ->.
  repeat match goal with
         | H : _ \/ _ |- _ => destruct H as [H|H]
         | H : False |- _ => destruct H
         end; subst; discriminate.
Qed.

Section FBrefProperties.
Context {RT : Runtime} {PV : Provider}.

Lemma select_matches table league_name season team rows r :
  select table league_name season team = Ok rows ->
  In r rows ->
  exists matches t,
    str_contains team = Some matches /\ f_team r = Some t
    /\ matches t = true.
Proof.
  unfold select. destruct (str_contains team) as [matches|]; [|done].
  intros [= <-] Hin. apply filter_In in Hin as [_ Hin].
  apply andb_true_iff in Hin as [_ Hin].
  destruct (f_team r) as [t|]; [|done]. by exists matches, t.
Qed.

(** The keys of the dict of one season that the merge and the claims
    look at. *)
Lemma fbref_season_keys standard possession shooting league_name team season sd :
  fbref_season standard possession shooting league_name team season = Ok sd ->
  (sd !! "Season" = None \/ sd !! "Season" = Some (CText season))
  /\ (forall t, sd !! "Team" = Some (CText t) ->
        exists matches, str_contains team = Some matches
                        /\ matches t = true).
Proof.
  unfold fbref_season. intros H.
  apply rbind_ok in H as (std_data & Hstd & H).
  apply rbind_ok in H as (poss_data & Hposs & H).
  apply rbind_ok in H as (shot_data & Hshot & H).
  set (sd1 := match std_data with
              | std_row :: _ => standard_entries std_row league_name season ∅
              | [] => ∅
              end) in *.
  assert (H1 : (sd1 !! "Season" = None
                \/ sd1 !! "Season" = Some (CText season))
               /\ (forall t, sd1 !! "Team" = Some (CText t) ->
                     exists matches, str_contains team = Some matches
                                     /\ matches t = true)).
  { unfold sd1. destruct std_data as [|std_row rest].
    - split; [by left|]. intros t. by rewrite lookup_empty.
    - unfold standard_entries. split.
      + right. by simplify_map_eq.
      + intros t. simplify_map_eq. intros Ht.
        destruct (select_matches _ _ _ _ _ std_row Hstd) as (m & t' & Hm & Ht' & Hmt).
        { by left. }
        rewrite Ht' in Ht. simpl in Ht. injection Ht as <-. eauto. }
  set (sd2 := match poss_data with
              | poss_row :: _ =>
                  <[ "Avg_Possession" := row_get poss_row "poss" ]> sd1
              | [] => sd1
              end) in *.
  assert (H2 : sd2 !! "Season" = sd1 !! "Season"
               /\ sd2 !! "Team" = sd1 !! "Team").
  { unfold sd2. destruct poss_data; [done|]. by simplify_map_eq. }
  destruct H2 as [H2s H2t].
  assert (H3 : sd !! "Season" = sd2 !! "Season"
               /\ sd !! "Team" = sd2 !! "Team").
  { destruct shot_data as [|shot_row rest].
    - by injection H as <-.
    - apply rbind_ok in H as (shots & _ & H).
      apply rbind_ok in H as (on_target & _ & H).
      injection H as <-. by simplify_map_eq. }
  destruct H3 as [H3s H3t]. rewrite H3s, H3t, H2s, H2t. exact H1.
Qed.

Lemma fbref_loop_keys standard possession shooting league_name team todo acc frame :
  fbref_loop standard possession shooting league_name team todo acc = Ok frame ->
  forall (P : gmap string cell -> Prop),
    Forall P acc ->
    (forall season sd,
        In season todo ->
        fbref_season standard possession shooting league_name team season
        = Ok sd -> P sd) ->
    Forall P frame.
Proof.
  revert acc. induction todo as [|season rest IH]; intros acc H P Hacc Hstep.
  { simpl in H. by injection H as <-. }
  simpl in H. apply rbind_ok in H as (sd & Hsd & H).
  eapply IH; [exact H| |].
  - case_bool_decide; [done|].
    apply Forall_app. split; [done|].
    constructor; [|constructor]. eapply Hstep; [by left|done].
  - intros s sd' Hin. apply Hstep. by right.
Qed.

Lemma get_fbref_team_stats_frame league team frame out :
  get_fbref_team_stats league team = (Ok (Some frame), out) ->
  exists standard possession shooting league_name,
    fbref_loop standard possession shooting league_name team
      fbref_seasons [] = Ok frame.
Proof.
  unfold get_fbref_team_stats.
  destruct (read_team_season_stats "standard") as [standard|]; [|done].
  destruct (read_team_season_stats "possession") as [possession|]; [|done].
  destruct (read_team_season_stats "shooting") as [shooting|]; [|done].
  cbn [bind print lift try_except].
  destruct (fbref_league_mappings !! lower league) as [league_name|]; [|done].
  destruct (fbref_loop standard possession shooting league_name team
              fbref_seasons []) as [team_data|e] eqn:Hloop; [|done].
  cbn [bind]. destruct team_data as [|sd rest]; [done|].
  cbn. intros [= <- _]. by exists standard, possession, shooting, league_name.
Qed.

Lemma get_team_league_table_stats_rows league team rows out :
  get_team_league_table_stats league team = (Ok rows, out) ->
  exists code name, rows = omap (season_record code league name) seasons.
Proof.
  unfold get_team_league_table_stats.
  destruct (league_mappings !! lower league) as [code|]; [|done].
  destruct (find_team_match league team "2024/2025") as [[found|e] out0];
    [|done].
  cbn [bind].
  destruct found as [[|c s]|].
  - destruct (get_available_teams league "2024/2025") as [[a|e] o]; done.
  - cbn [bind print].
    pose proof (fetch_seasons_spec code league (String c s) seasons []) as Hs.
    destruct (fetch_seasons code league (String c s) seasons []) as [r o].
    cbn [fst] in Hs. subst r. cbn [app].
    destruct (omap _ seasons) as [|st rest] eqn:Hrows; [done|].
    cbn. intros [= <- _]. exists code, (String c s). exact (eq_sym Hrows).
  - destruct (get_available_teams league "2024/2025") as [[a|e] o]; done.
Qed.

(** No row of the FBref table is ever joined with a row of the league
    table: the first labels its seasons "2024-2025", the second
    "2024/2025". *)
Lemma never_joined league team rows out frame out' left right :
  get_team_league_table_stats league team = (Ok rows, out) ->
  get_fbref_team_stats league team = (Ok (Some frame), out') ->
  In left rows -> In right frame ->
  joined left right = false.
Proof.
  intros Hrows Hframe Hl Hr.
  destruct (get_team_league_table_stats_rows _ _ _ _ Hrows)
    as (code & name & ->).
  destruct (get_fbref_team_stats_frame _ _ _ _ Hframe)
    as (standard & possession & shooting & league_name & Hloop).
  assert (Hleft : In (Season left) seasons).
  { pose proof (seasons_of_records code league name seasons) as Hs.
    assert (Hin : In (Season left)
                    (map Season (omap (season_record code league name)
                                   seasons))) by by apply in_map.
    rewrite Hs in Hin. by apply filter_In in Hin as [? _]. }
  pose proof (fbref_loop_keys _ _ _ _ _ _ _ _ Hloop
    (fun sd => sd !! "Season" = None
               \/ exists s, In s fbref_seasons
                            /\ sd !! "Season" = Some (CText s))) as Hkeys.
  assert (Hright : right !! "Season" = None
                   \/ exists s, In s fbref_seasons
                                /\ right !! "Season" = Some (CText s)).
  { assert (Hall : Forall
              (fun sd : gmap string cell =>
                 sd !! "Season" = None
                 \/ exists s, In s fbref_seasons
                              /\ sd !! "Season" = Some (CText s)) frame).
    { apply Hkeys; [constructor|].
      intros season sd Hin Hsd.
      destruct (fbref_season_keys _ _ _ _ _ _ _ Hsd) as [[H|H] _];
        [by left | right; eauto]. }
    rewrite List.Forall_forall in Hall. by apply Hall. }
  unfold joined, frame_get.
  destruct Hright as [->|(s & Hs & ->)]; [done|].
  simpl. apply String.eqb_neq. by apply season_labels_differ.
Qed.
End FBrefProperties.

Section HybridProperties.
Context {RT : Runtime} {PV : Provider}.

Lemma merge_row_unjoined frame left :
  (forall right, In right frame -> joined left right = false) ->
  merge_row frame left
  = [ {| m_basic := left;
         m_Avg_Possession := nan_cell;
         m_Shots_Per_Game := nan_cell;
         m_Shots_on_Target_Per_Game := nan_cell |} ].
Proof.
  intros H. unfold merge_row.
  replace (List.filter (joined left) frame) with (@nil (gmap string cell));
    [done|].
  symmetry. induction frame as [|r frame IH]; simpl; [done|].
  rewrite (H r) by by left. apply IH. intros r' Hr'. apply H. by right.
Qed.

Lemma fill_unjoined rows frame :
  (forall left right, In left rows -> In right frame ->
                      joined left right = false) ->
  mapM fill_row (merge rows frame) = Ok (map estimated_row rows).
Proof.
  induction rows as [|st rows IH]; intros H; [done|].
  unfold merge. cbn [flat_map].
  rewrite merge_row_unjoined by (intros; apply H; [by left|done]).
  cbn [app mapM]. fold (merge rows frame).
  rewrite IH by (intros; apply H; [by right|done]).
  reflexivity.
Qed.

(** Whenever the hybrid path returns the merged table, each of its rows
    is the league-table record with the three added columns filled by
    the estimates: nothing of the FBref table reaches it. *)
Lemma merged_rows_are_estimates league team merged out :
  get_hybrid_team_stats league team = (Ok (Some (Merged merged)), out) ->
  exists rows out1,
    get_team_league_table_stats league team = (Ok rows, out1)
    /\ merged = map estimated_row rows.
Proof.
  unfold get_hybrid_team_stats. cbn [bind print].
  destruct (get_team_league_table_stats league team)
    as [[rows|e] out1] eqn:Hrows; cbn [try_except bind print ret];
    [|done].
  destruct (get_fbref_team_stats league team)
    as [[fbref|e] out2] eqn:Hfb; cbn [bind]; [|done].
  destruct fbref as [[|sd frame]|]; [done| |done].
  cbn [bind print lift].
  match goal with
  | |- context [check_columns ?f ?k] => destruct (check_columns f k)
  end; cbn [bind]; [|done].
  rewrite (fill_unjoined rows (sd :: frame)).
  - cbn. intros [= <- _]. by exists rows, out1.
  - intros left right Hl Hr. by eapply never_joined.
Qed.

Lemma hybrid_falls_back league team rows out1 out2 :
  get_team_league_table_stats league team = (Ok rows, out1) ->
  get_fbref_team_stats league team = (Ok None, out2) ->
  get_hybrid_team_stats league team
  = (Ok (Some (Basic rows)),
     [GettingHybrid team league] ++ out1
       ++ [BasicRetrieved; AttemptingFBref] ++ out2 ++ [UsingEstimates]).
Proof.
  intros H1 H2. unfold get_hybrid_team_stats. rewrite H1.
  cbn [bind print try_except ret]. rewrite H2. cbn [bind print ret].
  f_equal. rewrite !app_nil_r. cbn [app]. f_equal.
  by rewrite <- !app_assoc.
Qed.
End HybridProperties.

Section FBrefDivision.
Context {RT : Runtime} {PV : Provider}.

Lemma fbref_loop_raises standard possession shooting league_name team
    todo acc season e :
  In season todo ->
  fbref_season standard possession shooting league_name team season
  = Raise e ->
  exists e', fbref_loop standard possession shooting league_name team
               todo acc = Raise e'.
Proof.
  revert acc. induction todo as [|s rest IH]; intros acc Hin Hs; [done|].
  simpl.
  destruct (fbref_season standard possession shooting league_name team s)
    as [sd|e0] eqn:Hsd; simpl; [|by eexists].
  destruct Hin as [->|Hin]; [congruence|]. by apply IH.
Qed.

Lemma select_compiles table league_name season team rows table' :
  select table league_name season team = Ok rows ->
  exists rows', select table' league_name season team = Ok rows'.
Proof.
  unfold select. destruct (str_contains team); [|done]. by eexists.
Qed.

Lemma truediv_python_zero a b :
  is_np a = false -> is_np b = false -> fl_is_zero (to_fl b) = true ->
  truediv a b = Raise ZeroDivisionError.
Proof. intros Ha Hb Hz. unfold truediv. by rewrite Ha, Hb, Hz. Qed.

Lemma truediv_numpy a b :
  is_np a || is_np b = true ->
  truediv a b = Ok (Flt true (fl_div (to_fl a) (to_fl b))).
Proof. intros H. unfold truediv. by rewrite H. Qed.

(** C10 (amended).  The shots per game are divided by the matches played
    of the season without a guard.  For a season of the window whose
    shooting row is present while its standard row reports zero matches
    played, when the shot count and the matches played are both Python
    numbers the division raises ZeroDivisionError, the handler of the
    function catches it and the whole fetch returns None, for every
    season.  When one of the two is a numpy scalar the division returns
    (an infinity or NaN) and raises nothing. *)
Theorem python_zero_division_discards_fbref league team league_name
    standard possession shooting season std_row std_rest shot_row shot_rest
    mp sh :
  read_team_season_stats "standard" = Ok standard ->
  read_team_season_stats "possession" = Ok possession ->
  read_team_season_stats "shooting" = Ok shooting ->
  fbref_league_mappings !! lower league = Some league_name ->
  In season fbref_seasons ->
  select standard league_name season team = Ok (std_row :: std_rest) ->
  select shooting league_name season team = Ok (shot_row :: shot_rest) ->
  row_get std_row "mp" = CNum mp ->
  row_get shot_row "sh" = CNum sh ->
  is_np mp = false -> is_np sh = false ->
  fl_is_zero (to_fl mp) = true ->
  truediv sh mp = Raise ZeroDivisionError
  /\ fbref_season standard possession shooting league_name team season
     = Raise ZeroDivisionError
  /\ (exists e, get_fbref_team_stats league team
                = (Ok None, [FetchingFBref team; ErrorFetchingFBref e]))
  /\ (forall a b, is_np a || is_np b = true ->
        truediv a b = Ok (Flt true (fl_div (to_fl a) (to_fl b)))).
Proof.
  intros Hstd Hposs Hshot Hleague Hin Hsel Hsel' Hmp Hsh Hnp Hnp' Hz.
  pose proof (truediv_python_zero sh mp Hnp' Hnp Hz) as Hdiv.
  assert (Hseason : fbref_season standard possession shooting league_name
                      team season = Raise ZeroDivisionError).
  { unfold fbref_season. rewrite Hsel. cbn [rbind].
    destruct (select_compiles _ _ _ _ _ possession Hsel) as [poss_data ->].
    cbn [rbind]. rewrite Hsel'. cbn [rbind].
    replace (matches_played_or_1 _) with (CNum mp).
    - rewrite Hsh. cbn [cell_truediv]. by rewrite Hdiv.
    - unfold matches_played_or_1, standard_entries.
      destruct poss_data; simplify_map_eq; by rewrite Hmp. }
  split; [done|]. split; [done|]. split; [|apply truediv_numpy].
  destruct (fbref_loop_raises standard possession shooting league_name team
              fbref_seasons [] season _ Hin Hseason) as [e He].
  exists e. unfold get_fbref_team_stats.
  rewrite Hstd, Hposs, Hshot. cbn [bind print lift try_except].
  rewrite Hleague, He. reflexivity.
Qed.

Lemma fbref_team_follows_query league team frame out sd t :
  get_fbref_team_stats league team = (Ok (Some frame), out) ->
  In sd frame ->
  sd !! "Team" = Some (CText t) ->
  exists matches, str_contains team = Some matches /\ matches t = true.
Proof.
  intros Hframe Hin.
  destruct (get_fbref_team_stats_frame _ _ _ _ Hframe)
    as (standard & possession & shooting & league_name & Hloop).
  assert (Hall : Forall
            (fun sd : gmap string cell =>
               forall t, sd !! "Team" = Some (CText t) ->
                 exists matches, str_contains team = Some matches
                                 /\ matches t = true) frame).
  { eapply fbref_loop_keys; [exact Hloop|constructor|].
    intros season sd' _ Hsd.
    by destruct (fbref_season_keys _ _ _ _ _ _ _ Hsd) as [_ H]. }
  rewrite List.Forall_forall in Hall. by apply Hall.
Qed.
End FBrefDivision.

(** * The properties on the sample providers *)

(** Closes an equation between closed terms by evaluating its left side. *)
Ltac by_evaluation :=
  match goal with
  | |- _ = ?r => vm_cast_no_check (@eq_refl _ r)
  end.

Ltac not_in_list :=
  let H := fresh in
  intros H; simpl in H;
  repeat match type of H with
         | _ \/ _ => destruct H as [H|H]
         end; first [discriminate H | destruct H].

(** ** Team resolution *)

Lemma find_team_match_resolves_witness :
  exists r,
    find_team_match (PV := league_table_provider three_of_five)
      "england" "spurs" "2024/2025" = (Ok r, [])
    /\ resolves "spurs" ["Chelsea"; "Arsenal"; "Tottenham Hotspur"] r.
Proof.
  apply (find_team_match_resolves (RT := ascii_runtime)
           (PV := league_table_provider three_of_five)
           "england" "spurs" "2024/2025" "ENG-Premier League"
           [chelsea; arsenal_2024; tottenham]); reflexivity.
Defined.

Example spurs_with_tottenham_in_the_roster :
  find_team_match (PV := league_table_provider three_of_five)
    "england" "spurs" "2024/2025" = (Ok (Some "Tottenham Hotspur"), []).
Proof. reflexivity. Qed.

Example spurs_without_tottenham_in_the_roster :
  find_team_match (PV := league_table_provider three_of_five)
    "england" "spurs" "2023/2024" = (Ok None, []).
Proof. reflexivity. Qed.

Example arsenal_in_any_case :
  find_team_match (PV := league_table_provider three_of_five)
    "england" "arsenal" "2024/2025"
  = find_team_match (PV := league_table_provider three_of_five)
      "England" "ARSENAL" "2024/2025".
Proof. reflexivity. Qed.

(** ** Ratios *)

Lemma zero_matches_played_witness :
  exists st,
    season_stats "2024/2025" "england" nothing_played = Ok st
    /\ Win_Percentage st = Int false 0
    /\ Goals_Per_Game st = Int false 0
    /\ Goals_Against_Per_Game st = Int false 0.
Proof.
  destruct (zero_matches_played "2024/2025" "england" nothing_played)
    as (_ & H & _); [reflexivity|].
  eexists. split; [reflexivity|]. apply H. reflexivity.
Defined.

Lemma win_percentage_and_possession_ranges_witness :
  exists st,
    season_stats "2024/2025" "england" arsenal_2024 = Ok st
    /\ Wins st = 20 /\ Matches_Played st = 38
    /\ within 0 100 (to_fl (Win_Percentage st)).
Proof.
  eexists. split; [vm_compute; reflexivity|].
  match goal with
  | |- Wins ?st = _ /\ _ =>
      destruct (win_percentage_and_possession_ranges
                  "2024/2025" "england" arsenal_2024 st)
        as (_ & _ & Hwhole & _); [vm_compute; reflexivity|]
  end.
  destruct (Hwhole (Int true 20) (Int true 38) 20 38
              eq_refl eq_refl eq_refl eq_refl) as (Hw & Hmp & Hin).
  split; [exact Hw|]. split; [exact Hmp|]. apply Hin. rewrite Hw, Hmp. lia.
Defined.

(** C6, as stated, fails: a row with more wins than matches played has a
    win percentage above 100. *)
Lemma win_percentage_above_100 :
  exists st,
    season_stats "2024/2025" "england" more_wins_than_matches = Ok st
    /\ Win_Percentage st = Flt true (Fin (1667 # 10))
    /\ ~ within 0 100 (to_fl (Win_Percentage st)).
Proof.
  eexists. split; [reflexivity|]. split; [reflexivity|].
  simpl. intros [_ H]. by compute in H.
Qed.

(** The bound is a condition on the cells, not on the integers of the
    record: with 3.9 in the W cell and 3.5 in the MP cell the record has
    three wins in three matches and a win percentage of 111.4. *)
Example win_percentage_of_fractional_cells :
  exists st,
    season_stats "2024/2025" "england"
      {| r_team := "Arsenal";
         r_MP := CNum (Flt true (Fin (35 # 10)));
         r_W := CNum (Flt true (Fin (39 # 10)));
         r_D := int_cell 0; r_L := int_cell 0;
         r_GF := CText "10"; r_GA := CText "4";
         r_GD := int_cell 6; r_Pts := int_cell 9 |} = Ok st
    /\ Wins st = 3 /\ Matches_Played st = 3
    /\ Win_Percentage st = Flt true (Fin (557 # 5)).
Proof.
  eexists. split; [vm_compute; reflexivity|]. by repeat split.
Qed.

(** ** Roster failure *)

Lemma roster_failure_becomes_team_not_found_witness :
  get_team_league_table_stats (PV := provider_down) "england" "Arsenal"
  = (Raise (TeamNotFound "Arsenal" "england" []),
     [ErrorFetchingTeams "england" (ProviderError "connection refused");
      ErrorFetchingTeams "england" (ProviderError "connection refused")]).
Proof.
  apply (roster_failure_becomes_team_not_found (PV := provider_down)
           "england" "Arsenal" "ENG-Premier League"
           (ProviderError "connection refused")); reflexivity.
Defined.

(** C3, as stated, fails: with the provider down, the lookup of a team
    fails with the "team not found" error, the same kind of error as for
    a team that is not in a roster that was fetched. *)
Lemma provider_failure_reported_as_team_not_found :
  read_league_table (Provider := provider_down)
    "ENG-Premier League" "2024/2025"
  = Raise (ProviderError "connection refused")
  /\ (exists e,
        fst (get_team_league_table_stats (PV := provider_down)
               "england" "Arsenal") = Raise e
        /\ is_team_not_found e = true)
  /\ (exists e,
        fst (get_team_league_table_stats
               (PV := league_table_provider three_of_five)
               "england" "Real Madrid") = Raise e
        /\ is_team_not_found e = true).
Proof.
  split; [reflexivity|]. split; eexists; split; reflexivity.
Qed.

(** ** Seasons in the report *)

Lemma report_of_included_seasons_witness :
  exists rows out,
    get_team_league_table_stats (PV := league_table_provider three_of_five)
      "england" "arsenal" = (Ok rows, out)
    /\ map Season rows = ["2024/2025"; "2023/2024"; "2020/2021"]
    /\ length rows = 3%nat.
Proof.
  destruct (report_of_included_seasons
              (PV := league_table_provider three_of_five)
              "england" "arsenal" "ENG-Premier League" "Arsenal" [] no_noise)
    as (rows & out & H1 & H2 & H3 & _);
    [reflexivity | reflexivity | discriminate | vm_compute; lia |].
  exists rows, out. split; [exact H1|]. split; [exact H2 | exact H3].
Defined.

(** C2, as stated, fails: three of the five seasons have a row for the
    team, but the row of 2023/2024 holds a text in its points column;
    [int()] raises on it, the handler of the loop skips the season, and
    the table has two records. *)
Lemma season_with_unreadable_row_is_dropped :
  List.filter
    (fun season =>
       bool_decide (is_Some (matching_row
                               (PV := league_table_provider
                                        three_rows_one_unreadable)
                               "ENG-Premier League" "Arsenal" season)))
    seasons
  = ["2024/2025"; "2023/2024"; "2020/2021"]
  /\ exists rows out,
       get_team_league_table_stats
         (PV := league_table_provider three_rows_one_unreadable)
         "england" "arsenal" = (Ok rows, out)
       /\ map Season rows = ["2024/2025"; "2020/2021"]
       /\ In (ErrorFetchingSeason "2023/2024" ValueError) out.
Proof.
  split; [by vm_compute|].
  eexists _, _. split; [by vm_compute|].
  split; [reflexivity|]. simpl. tauto.
Qed.

(** ** Cells that are not numbers *)

(** C4, as stated, fails: a points cell that is not a number does not
    become zero; the season is skipped. *)
Lemma unparseable_points_skip_the_season :
  matching_row (PV := league_table_provider three_rows_one_unreadable)
    "ENG-Premier League" "Arsenal" "2023/2024" = Some points_as_text
  /\ r_Pts points_as_text = CText "n/a"
  /\ season_stats "2023/2024" "england" points_as_text = Raise ValueError
  /\ fetch_season (PV := league_table_provider three_rows_one_unreadable)
       "ENG-Premier League" "england" "Arsenal" "2023/2024"
     = (Ok None,
        [SeasonStart "2023/2024"; ErrorFetchingSeason "2023/2024" ValueError]).
Proof. repeat split; reflexivity. Qed.

Example unparseable_goals_become_zero :
  exists st,
    season_stats "2023/2024" "england"
      {| r_team := "Arsenal"; r_MP := CText "-"; r_W := int_cell 28;
         r_D := CNone; r_L := int_cell 5;
         r_GF := CText "n/a"; r_GA := CNum (Flt true NaN);
         r_GD := int_cell 62; r_Pts := int_cell 89 |} = Ok st
    /\ Matches_Played st = 0 /\ Goals_For st = 0 /\ Goals_Against st = 0
    /\ Draws st = 0 /\ Wins st = 28.
Proof. eexists. repeat split; reflexivity. Qed.

(** ** Goal difference *)

(** C8, as stated, fails: a row whose goal difference (99) is not goals
    for minus goals against (69 - 34) is entered as it is, and the run
    prints exactly what it prints for the consistent row: nothing flags
    the mismatch. *)
Lemma goal_difference_mismatch_is_not_flagged :
  exists st out,
    get_team_league_table_stats
      (PV := league_table_provider (only_2024 inconsistent_difference))
      "england" "arsenal" = (Ok [st], out)
    /\ Goals_For st = 69 /\ Goals_Against st = 34 /\ Goal_Difference st = 99
    /\ out = [FoundTeam "Arsenal" "arsenal"; FetchingSeasons "Arsenal" "england";
              SeasonStart "2024/2025";
              SeasonStart "2023/2024"; TeamNotInSeason "Arsenal" "2023/2024";
              SeasonStart "2022/2023"; TeamNotInSeason "Arsenal" "2022/2023";
              SeasonStart "2021/2022"; TeamNotInSeason "Arsenal" "2021/2022";
              SeasonStart "2020/2021"; TeamNotInSeason "Arsenal" "2020/2021"]
    /\ out = snd (get_team_league_table_stats
                    (PV := league_table_provider (only_2024 arsenal_2024))
                    "england" "arsenal").
Proof.
  eexists _, _. split; [by vm_compute|]. repeat split; reflexivity.
Qed.

(** ** The hybrid table *)

(** C1.  With FBref unavailable the hybrid path returns the league-table
    records as they are: the table has the fourteen basic columns and
    none of the estimated ones, although the path announces estimated
    statistics. *)
Lemma hybrid_fallback_has_no_estimates :
  exists rows out,
    get_hybrid_team_stats (PV := league_table_provider three_of_five)
      "england" "arsenal" = (Ok (Some (Basic rows)), out)
    /\ map Season rows = ["2024/2025"; "2023/2024"; "2020/2021"]
    /\ columns (Basic rows) = basic_columns
    /\ ~ In "Avg_Possession" (columns (Basic rows))
    /\ ~ In "Shots_Per_Game" (columns (Basic rows))
    /\ ~ In "Shots_on_Target_Per_Game" (columns (Basic rows))
    /\ last out = Some UsingEstimates.
Proof.
  eexists _, _. split; [by vm_compute|].
  split; [reflexivity|]. split; [reflexivity|].
  split; [not_in_list|]. split; [not_in_list|]. split; [not_in_list|].
  reflexivity.
Qed.

(** C9.  On the query "city" the FBref fetch collects, for 2024-2025,
    the row of Leicester City, the first whose team value contains the
    raw query, while the league-table record of the season is Manchester
    City's, the team the query resolved to.  The hybrid path announces
    that the advanced statistics were retrieved and returns the merged
    table, but no detailed field is in it: the merge joins on the season,
    which the league table labels "2024/2025" and the FBref fetch
    "2024-2025", so the possession of the row is the estimate made from
    the goal difference, neither Leicester City's value nor Manchester
    City's.  For no provider is a row of the FBref table ever joined with
    a record of the league table. *)
Theorem detailed_row_is_collected_but_never_merged :
  (exists merged out,
      find_team_match (PV := two_cities) "england" "city" "2024/2025"
      = (Ok (Some "Manchester City"), [])
      /\ get_fbref_team_stats (PV := two_cities) "england" "city"
         = (Ok (Some [leicester_city_2024]), [FetchingFBref "city"])
      /\ leicester_city_2024 !! "Season" = Some (CText "2024-2025")
      /\ leicester_city_2024 !! "Team" = Some (CText "Leicester City")
      /\ leicester_city_2024 !! "Avg_Possession"
         = Some (CNum (Flt true (Fin (452 # 10))))
      /\ get_hybrid_team_stats (PV := two_cities) "england" "city"
         = (Ok (Some (Merged merged)), out)
      /\ In AdvancedRetrieved out
      /\ map (fun m => (Season (m_basic m), Team (m_basic m))) merged
         = [("2024/2025", "Manchester City")]
      /\ map (fun m => Goal_Difference (m_basic m)) merged = [28]
      /\ map m_Avg_Possession merged = [CNum (Flt true (Fin (584 # 10)))]
      /\ merged = map estimated_row (map m_basic merged))
  /\ (forall (RT : Runtime) (PV : Provider) league team rows out frame out'
         left right,
        get_team_league_table_stats league team = (Ok rows, out) ->
        get_fbref_team_stats league team = (Ok (Some frame), out') ->
        In left rows -> In right frame ->
        joined left right = false).
Proof.
  split.
  - eexists _, _.
    split; [by_evaluation|]. split; [by_evaluation|].
    split; [by_evaluation|]. split; [by_evaluation|].
    split; [by_evaluation|].
    split; [vm_compute; reflexivity|].
    split; [cbn; tauto|].
    split; [vm_compute; reflexivity|].
    split; [vm_compute; reflexivity|].
    split; vm_compute; reflexivity.
  - intros RT PV league team rows out frame out' left right.
    apply never_joined.
Qed.

(** ** Division by the matches played in the FBref fetch *)

Lemma python_zero_division_discards_fbref_witness :
  exists e,
    get_fbref_team_stats (PV := no_match_played false) "england" "arsenal"
    = (Ok None, [FetchingFBref "arsenal"; ErrorFetchingFBref e]).
Proof.
  destruct (python_zero_division_discards_fbref
              (PV := no_match_played false)
              "england" "arsenal" "Premier League"
              [ fbref_row_of "2024-2025" "Arsenal" [("mp", CNum (Int false 0))];
                fbref_row_of "2023-2024" "Arsenal" [("mp", CNum (Int false 38))] ]
              [ fbref_row_of "2023-2024" "Arsenal"
                  [("poss", CNum (Flt false (Fin (58 # 1))))] ]
              [ fbref_row_of "2024-2025" "Arsenal"
                  [("sh", CNum (Int false 10)); ("sot", CNum (Int false 4))];
                fbref_row_of "2023-2024" "Arsenal"
                  [("sh", CNum (Int false 646)); ("sot", CNum (Int false 228))] ]
              "2024-2025"
              (fbref_row_of "2024-2025" "Arsenal" [("mp", CNum (Int false 0))])
              []
              (fbref_row_of "2024-2025" "Arsenal"
                 [("sh", CNum (Int false 10)); ("sot", CNum (Int false 4))])
              []
              (Int false 0) (Int false 10))
    as (_ & _ & H & _);
    [reflexivity | reflexivity | reflexivity | reflexivity | by left
    | reflexivity | reflexivity | reflexivity | reflexivity
    | reflexivity | reflexivity | reflexivity | exact H].
Defined.

(** C10, as stated, fails: with numpy scalars in the cells, as pandas
    gives them, the division by zero matches played returns an infinity;
    nothing is raised and the fetch returns its table, with the data of
    the other season kept. *)
Lemma numpy_zero_division_keeps_fbref :
  exists sd1 sd2,
    get_fbref_team_stats (PV := no_match_played true) "england" "arsenal"
    = (Ok (Some [sd1; sd2]), [FetchingFBref "arsenal"])
    /\ sd1 !! "Season" = Some (CText "2024-2025")
    /\ sd1 !! "Matches_Played" = Some (CNum (Int true 0))
    /\ sd1 !! "Shots_Per_Game" = Some (CNum (Flt true (Inf false)))
    /\ sd2 !! "Season" = Some (CText "2023-2024")
    /\ sd2 !! "Shots_Per_Game" = Some (CNum (Flt true (Fin 17))).
Proof.
  exists arsenal_unplayed_2024, arsenal_fbref_2023.
  split; [by_evaluation|].
  split; [by_evaluation|]. split; [by_evaluation|].
  split; [by_evaluation|]. split; by_evaluation.
Qed.

(** ** Further instances *)

Lemma cells_that_are_not_numbers_witness :
  converts points_as_text = false
  /\ exists e,
       fetch_season (PV := league_table_provider three_rows_one_unreadable)
         "ENG-Premier League" "england" "Arsenal" "2023/2024"
       = (Ok None,
          [SeasonStart "2023/2024"; ErrorFetchingSeason "2023/2024" e]).
Proof.
  destruct (cells_that_are_not_numbers
              (PV := league_table_provider three_rows_one_unreadable)
              "2023/2024" "england" points_as_text)
    as (_ & _ & _ & _ & Hrejected & Hfetch).
  assert (Hc : converts points_as_text = false).
  { apply Hrejected. right. right. right. exists "n/a". by split. }
  split; [exact Hc|].
  apply (Hfetch "ENG-Premier League" "Arsenal"); [reflexivity | exact Hc].
Defined.

Lemma goal_difference_is_copied_witness :
  exists st,
    fetch_season
      (PV := league_table_provider (only_2024 inconsistent_difference))
      "ENG-Premier League" "england" "Arsenal" "2024/2025"
    = (Ok (Some st), [SeasonStart "2024/2025"])
    /\ Goal_Difference st = 99 /\ Goals_For st = 69 /\ Goals_Against st = 34
    /\ exists st',
         season_stats "2024/2025" "england" arsenal_2024 = Ok st'
         /\ Goal_Difference st' = 35
         /\ Goals_For st' = Goals_For st
         /\ Goals_Against st' = Goals_Against st.
Proof.
  destruct (season_stats "2024/2025" "england" inconsistent_difference)
    as [st|e] eqn:Hst; [|vm_compute in Hst; discriminate Hst].
  destruct (goal_difference_is_copied
              (PV := league_table_provider (only_2024 inconsistent_difference))
              "2024/2025" "england" inconsistent_difference st Hst)
    as (_ & _ & _ & _ & _ & _ & _ & Hgd & Hgf & Hga & Hother & Hfetch).
  exists st. split.
  { apply (Hfetch "ENG-Premier League" "Arsenal"). reflexivity. }
  split; [exact (Hgd true 99 eq_refl)|].
  split; [exact (Hgf true 69 eq_refl)|].
  split; [exact (Hga true 34 eq_refl)|].
  eexists. split; [exact (Hother (int_cell 35) 35 eq_refl)|].
  by repeat split.
Defined.


(** * Further properties of the code *)

(** ** Leagues that are not in the table *)

Section UnknownLeague.
Context {RT : Runtime} {PV : Provider}.

(** X1.  A league that is not one of the aliases is rejected before any
    provider is asked: the roster, the team resolution, the table of a team
    and the team listing raise the "league not found" error and print
    nothing; [display_team_stats] prints that error and returns nothing;
    the hybrid path prints it and returns nothing. *)
Theorem unknown_league_is_rejected league team season nz :
  league_mappings !! lower league = None ->
  get_available_teams league season = (Raise (LeagueNotFound league), [])
  /\ find_team_match league team season = (Raise (LeagueNotFound league), [])
  /\ get_team_league_table_stats league team
     = (Raise (LeagueNotFound league), [])
  /\ show_available_teams league = (Raise (LeagueNotFound league), [])
  /\ display_team_stats league team nz
     = (Ok None, [DisplayError (LeagueNotFound league)])
  /\ get_hybrid_team_stats league team
     = (Ok None, [GettingHybrid team league;
                  ErrorBasic (LeagueNotFound league)]).
Proof.
  intros Hl.
  assert (Ha : forall s, get_available_teams league s
                         = (Raise (LeagueNotFound league), [])).
  { intros s. unfold get_available_teams. by rewrite Hl. }
  assert (Ht : get_team_league_table_stats league team
               = (Raise (LeagueNotFound league), [])).
  { unfold get_team_league_table_stats. by rewrite Hl. }
  split; [apply Ha|]. split.
  { unfold find_team_match. by rewrite Ha. }
  split; [exact Ht|]. split.
  { unfold show_available_teams. by rewrite Ha. }
  split.
  - unfold display_team_stats, get_enhanced_team_stats. by rewrite Ht.
  - unfold get_hybrid_team_stats. by rewrite Ht.
Qed.
End UnknownLeague.

(** ** What team resolution returns *)

Lemma str_in_empty s : str_in "" s = true.
Proof. by destruct s. Qed.

Section ResolutionResults.
Context {RT : Runtime} {PV : Provider}.

Lemma first_team_in test l t : first_team test l = Some t -> In t l.
Proof.
  intros H. destruct (first_team_some _ _ _ H) as (b & a & -> & _).
  apply in_or_app. right. by left.
Qed.

Lemma find_team_match_silent league team_input season code table :
  league_mappings !! lower league = Some code ->
  read_league_table code season = Ok table ->
  exists r, find_team_match league team_input season = (Ok r, []).
Proof.
  intros Hl Hr. unfold find_team_match.
  rewrite (get_available_teams_ok _ _ _ _ Hl Hr). cbn [bind app].
  destruct (map r_team table) as [|t0 roster]; [by eexists|].
  destruct (first_team (exact_match _) _); [by eexists|].
  destruct (first_team (partial_match _) _); [by eexists|].
  destruct (team_variations !! _); [|by eexists].
  case_bool_decide; by eexists.
Qed.

(** X2.  A name returned by [find_team_match] is always a name of the
    roster that the provider answered for that league and season, and the
    resolution printed nothing. *)
Theorem resolved_team_is_in_roster league team_input season t out :
  find_team_match league team_input season = (Ok (Some t), out) ->
  out = []
  /\ exists code table,
       league_mappings !! lower league = Some code
       /\ read_league_table code season = Ok table
       /\ In t (map r_team table).
Proof.
  unfold find_team_match, get_available_teams.
  destruct (league_mappings !! lower league) as [code|] eqn:Hl; [|done].
  destruct (read_league_table code season) as [table|e] eqn:Hr; [|done].
  cbn [lift bind try_except ret app].
  set (roster := map r_team table).
  intros H.
  assert (H' : (Ok (Some t), out) <> (Ok None, @nil line)
               -> out = [] /\ In t roster); [|].
  { destruct roster as [|t0 roster'] eqn:Hroster; [done|].
    rewrite <- Hroster in *. clear Hroster. cbn [app] in H.
    destruct (first_team (exact_match (lower team_input)) roster) eqn:He.
    { injection H as -> <-. intros _. split; [done|]. by eapply first_team_in. }
    destruct (first_team (partial_match (lower team_input)) roster) eqn:Hp.
    { injection H as -> <-. intros _. split; [done|]. by eapply first_team_in. }
    destruct (team_variations !! lower team_input) as [name|]; [|by injection H].
    case_bool_decide as Hin; injection H as <- <-; [|done].
    intros _. split; [done|]. by apply list_elem_of_In. }
  destruct H' as [-> Hin]; [done|].
  split; [done|]. by exists code, table.
Qed.

(** X3.  An empty query matches the first team of the roster: the partial
    match accepts every name, the empty text being contained in all. *)
Theorem empty_query_takes_first_team league team_input season code table
    first others :
  league_mappings !! lower league = Some code ->
  read_league_table code season = Ok table ->
  map r_team table = first :: others ->
  lower team_input = "" ->
  (forall u, In u (first :: others) -> lower u <> "") ->
  find_team_match league team_input season = (Ok (Some first), []).
Proof.
  intros Hl Hr Hroster Hq Hne. unfold find_team_match.
  rewrite (get_available_teams_ok _ _ _ _ Hl Hr), Hroster, Hq.
  cbn [bind ret app].
  replace (first_team (exact_match "") (first :: others)) with (@None string).
  - cbn [first_team]. unfold partial_match at 1. by rewrite str_in_empty.
  - symmetry. generalize (first :: others), Hne. clear.
    induction l as [|u l IH]; intros Hne; [done|]. cbn [first_team].
    unfold exact_match at 1.
    destruct (String.eqb_spec (lower u) "") as [E|_].
    + destruct (Hne u); [by left | done].
    + apply IH. intros v Hv. apply Hne. by right.
Qed.

(** X4.  When the roster was fetched and no step of the resolution matches
    the query, the table of the team fails with the "team not found" error
    carrying the whole roster, nothing being printed. *)
Theorem unmatched_team_reports_roster league team code table out :
  league_mappings !! lower league = Some code ->
  read_league_table code "2024/2025" = Ok table ->
  find_team_match league team "2024/2025" = (Ok None, out) ->
  get_team_league_table_stats league team
  = (Raise (TeamNotFound team league (map r_team table)), []).
Proof.
  intros Hl Hr Hf.
  destruct (find_team_match_silent league team "2024/2025" code table Hl Hr)
    as (r & Hf').
  rewrite Hf in Hf'. injection Hf' as <- ->.
  unfold get_team_league_table_stats. rewrite Hl, Hf. cbn [bind].
  by rewrite (get_available_teams_ok _ _ _ _ Hl Hr).
Qed.
End ResolutionResults.

(** ** The table of a team and the report *)

Lemma within_clip lo hi x :
  (lo <= hi)%Q -> fl_isnan x = false -> within lo hi (fl_clip lo hi x).
Proof.
  intros Hle. destruct x as [q|[]|]; simpl; try done.
  - intros _. destruct (Qlt_le_dec q lo) as [H1|H1]; simpl.
    + split; [apply Qle_refl | done].
    + destruct (Qlt_le_dec hi q) as [H2|H2]; simpl.
      * split; [done | apply Qle_refl].
      * by split.
  - intros _. split; [apply Qle_refl | done].
  - intros _. split; [done | apply Qle_refl].
Qed.

Section TableInvariants.
Context {RT : Runtime} {PV : Provider}.

Lemma season_stats_league season league row st :
  season_stats season league row = Ok st -> League st = title league.
Proof.
  unfold season_stats. intros H.
  repeat match type of H with
         | rbind ?m _ = Ok _ =>
             let a := fresh "a" in
             let Ha := fresh "Ha" in
             apply rbind_ok in H; destruct H as (a & Ha & H)
         end.
  by injection H as <-.
Qed.

Lemma rows_of_team_name name table row :
  In row (rows_of_team name table) -> r_team row = name.
Proof.
  unfold rows_of_team. intros H. apply filter_In in H as [_ H].
  by apply String.eqb_eq.
Qed.

Lemma season_record_labels code league name season st :
  season_record code league name season = Some st ->
  Season st = season /\ Team st = name /\ League st = title league.
Proof.
  intros H. split; [by eapply season_record_season|].
  unfold season_record, matching_row in H.
  destruct (read_league_table code season) as [table|]; [|done].
  destruct (rows_of_team name table) as [|row rest] eqn:Hrows; [done|].
  cbn [head] in H.
  destruct (season_stats season league row) as [st'|] eqn:Hst; [|done].
  injection H as <-. split.
  - apply season_stats_ok in Hst as (_ & -> & _).
    apply (rows_of_team_name name table). rewrite Hrows. by left.
  - by eapply season_stats_league.
Qed.

Lemma get_team_league_table_stats_inv league team rows out :
  get_team_league_table_stats league team = (Ok rows, out) ->
  exists code name out0,
    league_mappings !! lower league = Some code
    /\ find_team_match league team "2024/2025" = (Ok (Some name), out0)
    /\ name <> ""
    /\ rows = omap (season_record code league name) seasons
    /\ rows <> [].
Proof.
  unfold get_team_league_table_stats.
  destruct (league_mappings !! lower league) as [code|]; [|done].
  destruct (find_team_match league team "2024/2025") as [[found|e] out0];
    [|done].
  cbn [bind].
  destruct found as [[|c s]|].
  - destruct (get_available_teams league "2024/2025") as [[a|e] o]; done.
  - cbn [bind print].
    pose proof (fetch_seasons_spec code league (String c s) seasons []) as Hs.
    destruct (fetch_seasons code league (String c s) seasons []) as [r o].
    cbn [fst] in Hs. subst r. cbn [app].
    destruct (omap _ seasons) as [|st rest] eqn:Hrows; [done|].
    cbn. intros [= <- _]. exists code, (String c s), out0.
    repeat split; done.
  - destruct (get_available_teams league "2024/2025") as [[a|e] o]; done.
Qed.

(** X5.  When the team resolves but none of the five seasons is included
    (no season has a row of the team that converts), the table of the team
    fails with the "no data found" error; [display_team_stats] prints it
    last and returns nothing. *)
Theorem no_included_season_is_no_data league team code name out0 nz :
  league_mappings !! lower league = Some code ->
  find_team_match league team "2024/2025" = (Ok (Some name), out0) ->
  name <> "" ->
  List.filter (included code name) seasons = [] ->
  fst (get_team_league_table_stats league team)
  = Raise (NoDataFound name league)
  /\ fst (display_team_stats league team nz) = Ok None
  /\ last (snd (display_team_stats league team nz))
     = Some (DisplayError (NoDataFound name league)).
Proof.
  intros Hl Hf Hne Hnone.
  pose proof (get_team_league_table_stats_found _ _ _ _ _ Hl Hf Hne) as Hg.
  pose proof (seasons_of_records code league name seasons) as Hs.
  rewrite Hnone in Hs. apply map_eq_nil in Hs. rewrite Hs in Hg.
  split; [exact Hg|].
  unfold display_team_stats, get_enhanced_team_stats.
  destruct (get_team_league_table_stats league team) as [r out].
  cbn [fst] in Hg. subst r. cbn [bind try_except print ret fst snd].
  split; [done|]. by rewrite app_nil_r, last_snoc.
Qed.

Lemma seasons_distinct : NoDup seasons.
Proof. unfold seasons. compute_done. Qed.

(** X6.  A table returned for a team is never empty and has at most five
    records, of distinct seasons; every record carries the name the query
    resolved to, not the query, and the league as the user typed it,
    title-cased. *)
Theorem table_of_a_team_invariants league team rows out :
  get_team_league_table_stats league team = (Ok rows, out) ->
  rows <> []
  /\ (length rows <= 5)%nat
  /\ NoDup (map Season rows)
  /\ exists name out0,
       find_team_match league team "2024/2025" = (Ok (Some name), out0)
       /\ Forall (fun st => Team st = name /\ League st = title league) rows.
Proof.
  intros H.
  destruct (get_team_league_table_stats_inv _ _ _ _ H)
    as (code & name & out0 & Hl & Hf & Hne & -> & Hrows).
  assert (Hsub : sublist (map Season (omap (season_record code league name)
                                        seasons)) seasons).
  { rewrite seasons_of_records. apply sublist_filter_bool. }
  split; [done|]. split.
  { apply sublist_length in Hsub. by rewrite length_map in Hsub. }
  split.
  { exact (sublist_NoDup _ _ seasons_distinct Hsub). }
  exists name, out0. split; [done|].
  apply List.Forall_forall. intros st Hin.
  apply list_elem_of_In, list_elem_of_omap in Hin as (season & _ & Hrec).
  by apply season_record_labels in Hrec as (_ & ? & ?).
Qed.

(** X7.  In every table returned by [get_enhanced_team_stats], whatever
    the random draws, the estimated shots per game are a number between
    8 and 20, and the table has one row per league-table record, in
    order. *)
Theorem enhanced_shots_are_clamped league team nz stats out :
  get_enhanced_team_stats league team nz = (Ok stats, out) ->
  Forall (fun r => within 8 20 (Shots_Per_Game r)) stats
  /\ fst (get_team_league_table_stats league team) = Ok (map basic stats).
Proof.
  unfold get_enhanced_team_stats.
  destruct (get_team_league_table_stats league team) as [[rows|e] o] eqn:Hrows;
    [|done].
  cbn. intros [= <- _]. split.
  - destruct (get_team_league_table_stats_inv _ _ _ _ Hrows)
      as (code & name & out0 & _ & _ & _ & -> & _).
    apply Forall_imap_enhance. intros i st Hin.
    cbn [enhance Shots_Per_Game]. unfold shots_estimate.
    apply within_clip; [done|].
    rewrite fl_round_isnan, fl_add_fin_isnan.
    apply fl_mul_const_not_nan; [|done].
    by apply (records_ratios_defined code league name seasons st Hin).
  - by rewrite map_basic_imap.
Qed.

(** X8.  [display_team_stats] never raises: it returns nothing exactly
    when the table of the team could not be built, and then the last line
    it prints is the error; otherwise it returns the enhanced table, one
    row per record of the table of the team, and prints the summary
    last. *)
Theorem display_team_stats_never_raises league team nz :
  exists r out,
    display_team_stats league team nz = (Ok r, out)
    /\ (forall e, fst (get_team_league_table_stats league team) = Raise e ->
          r = None /\ last out = Some (DisplayError e))
    /\ (forall rows,
          fst (get_team_league_table_stats league team) = Ok rows ->
          r = Some (imap (enhance nz) rows)
          /\ last out = Some (SummaryStatistics
                                (summary_stats (imap (enhance nz) rows)))).
Proof.
  unfold display_team_stats, get_enhanced_team_stats.
  destruct (get_team_league_table_stats league team) as [[rows|e] o];
    cbn [bind try_except print ret fst].
  - eexists _, _. split; [reflexivity|]. split; [done|].
    intros rows' [= <-]. split; [done|].
    by rewrite !app_nil_r, last_snoc.
  - eexists _, _. split; [reflexivity|]. split; [|done].
    intros e' [= <-]. split; [done|]. by rewrite app_nil_r, last_snoc.
Qed.
End TableInvariants.

(** ** The best and the worst season *)

Lemma extreme_season_max rows s0 p0 s p :
  extreme_season Z.gtb rows (Some (s0, p0)) = Some (s, p) ->
  (forall r, In r rows -> points_of r <= p)
  /\ p0 <= p
  /\ ((s, p) = (s0, p0)
      \/ exists before r after,
           rows = before ++ r :: after
           /\ s = Season (basic r) /\ p = points_of r /\ p0 < p
           /\ forall r', In r' before -> points_of r' < p).
Proof.
  revert s0 p0. induction rows as [|r rows IH]; intros s0 p0; cbn [extreme_season].
  { intros [= <- <-]. split; [intros ? []|]. split; [lia|]. by left. }
  fold (points_of r).
  destruct (Z.gtb_spec (points_of r) p0) as [Hgt|Hle]; intros H;
    apply IH in H as (Hall & Hp & Hwhere).
  - split. { intros r' [<-|Hin]; [lia | by apply Hall]. }
    split; [lia|]. right.
    destruct Hwhere as [[= -> ->]|(b & r1 & a & -> & -> & -> & Hlt & Hb)].
    + exists [], r, rows. repeat split; try done; intros ? [].
    + exists (r :: b), r1, a. repeat split; try done; [lia|].
      intros r' [<-|Hin]; [lia | by apply Hb].
  - split. { intros r' [<-|Hin]; [lia | by apply Hall]. }
    split; [lia|].
    destruct Hwhere as [[= -> ->]|(b & r1 & a & -> & -> & -> & Hlt & Hb)].
    + by left.
    + right. exists (r :: b), r1, a. repeat split; try done.
      intros r' [<-|Hin]; [lia | by apply Hb].
Qed.

Lemma extreme_season_min rows s0 p0 s p :
  extreme_season Z.ltb rows (Some (s0, p0)) = Some (s, p) ->
  (forall r, In r rows -> p <= points_of r)
  /\ p <= p0
  /\ ((s, p) = (s0, p0)
      \/ exists before r after,
           rows = before ++ r :: after
           /\ s = Season (basic r) /\ p = points_of r /\ p < p0
           /\ forall r', In r' before -> p < points_of r').
Proof.
  revert s0 p0. induction rows as [|r rows IH]; intros s0 p0; cbn [extreme_season].
  { intros [= <- <-]. split; [intros ? []|]. split; [lia|]. by left. }
  fold (points_of r).
  destruct (Z.ltb_spec (points_of r) p0) as [Hlt|Hge]; intros H;
    apply IH in H as (Hall & Hp & Hwhere).
  - split. { intros r' [<-|Hin]; [lia | by apply Hall]. }
    split; [lia|]. right.
    destruct Hwhere as [[= -> ->]|(b & r1 & a & -> & -> & -> & Hlt' & Hb)].
    + exists [], r, rows. repeat split; try done; intros ? [].
    + exists (r :: b), r1, a. repeat split; try done; [lia|].
      intros r' [<-|Hin]; [lia | by apply Hb].
  - split. { intros r' [<-|Hin]; [lia | by apply Hall]. }
    split; [lia|].
    destruct Hwhere as [[= -> ->]|(b & r1 & a & -> & -> & -> & Hlt' & Hb)].
    + by left.
    + right. exists (r :: b), r1, a. repeat split; try done.
      intros r' [<-|Hin]; [lia | by apply Hb].
Qed.

Lemma extreme_season_some better rows c :
  extreme_season better rows (Some c) <> None.
Proof.
  revert c. induction rows as [|r rows IH]; intros [s q]; cbn [extreme_season];
    [done|].
  destruct (better (Points (basic r)) q); apply IH.
Qed.

(** X9.  On a table that is not empty, the best season of the summary is
    the season of the first record that reaches the highest points of the
    table, with those points, and the worst season the season of the first
    record that reaches the lowest. *)
Theorem best_and_worst_season stats :
  stats <> [] ->
  (exists before r after,
      stats = before ++ r :: after
      /\ best_season (summary_stats stats)
         = Some (Season (basic r), points_of r)
      /\ (forall r', In r' stats -> points_of r' <= points_of r)
      /\ (forall r', In r' before -> points_of r' < points_of r))
  /\ (exists before r after,
        stats = before ++ r :: after
        /\ worst_season (summary_stats stats)
           = Some (Season (basic r), points_of r)
        /\ (forall r', In r' stats -> points_of r <= points_of r')
        /\ (forall r', In r' before -> points_of r < points_of r')).
Proof.
  destruct stats as [|r0 rest]; [done|]. intros _.
  cbn [summary_stats best_season worst_season extreme_season].
  fold (points_of r0). split.
  - destruct (extreme_season Z.gtb rest (Some (Season (basic r0), points_of r0)))
      as [[s p]|] eqn:He.
    2: { by apply extreme_season_some in He. }
    apply extreme_season_max in He as (Hall & Hp & Hwhere).
    destruct Hwhere as [[= -> ->]|(b & r & a & -> & -> & -> & Hlt & Hb)].
    + exists [], r0, rest. split; [done|]. split; [done|]. split.
      * intros r' [<-|Hin]; [lia | by apply Hall].
      * intros ? [].
    + exists (r0 :: b), r, a. split; [done|]. split; [done|]. split.
      * intros r' [<-|Hin]; [lia | by apply Hall].
      * intros r' [<-|Hin]; [lia | by apply Hb].
  - destruct (extreme_season Z.ltb rest (Some (Season (basic r0), points_of r0)))
      as [[s p]|] eqn:He.
    2: { by apply extreme_season_some in He. }
    apply extreme_season_min in He as (Hall & Hp & Hwhere).
    destruct Hwhere as [[= -> ->]|(b & r & a & -> & -> & -> & Hlt & Hb)].
    + exists [], r0, rest. split; [done|]. split; [done|]. split.
      * intros r' [<-|Hin]; [lia | by apply Hall].
      * intros ? [].
    + exists (r0 :: b), r, a. split; [done|]. split; [done|]. split.
      * intros r' [<-|Hin]; [lia | by apply Hall].
      * intros r' [<-|Hin]; [lia | by apply Hb].
Qed.

(** ** The FBref fetch *)

Section FBrefFetch.
Context {RT : Runtime} {PV : Provider}.

(** The table the loop builds: the dicts of the seasons, the empty ones
    left out. *)
Lemma fbref_loop_spec standard possession shooting league_name team todo acc
    frame :
  fbref_loop standard possession shooting league_name team todo acc = Ok frame ->
  exists sds,
    Forall2 (fun season sd =>
               fbref_season standard possession shooting league_name team
                 season = Ok sd) todo sds
    /\ frame = (acc ++ List.filter (fun sd => negb (bool_decide (sd = ∅))) sds)%list.
Proof.
  revert acc. induction todo as [|season rest IH]; intros acc H.
  { simpl in H. injection H as <-. exists []. split; [constructor|].
    by rewrite app_nil_r. }
  simpl in H. apply rbind_ok in H as (sd & Hsd & H).
  apply IH in H as (sds & Hall & ->).
  exists (sd :: sds). split; [by constructor|].
  cbn [List.filter]. case_bool_decide; cbn [negb]; [done|].
  by rewrite <- app_assoc.
Qed.

Lemma season_keys_in_order standard possession shooting league_name team todo
    sds :
  Forall2 (fun season sd =>
             fbref_season standard possession shooting league_name team
               season = Ok sd) todo sds ->
  sublist (omap (fun sd : gmap string cell => sd !! "Season") sds)
          (map CText todo).
Proof.
  induction 1 as [|season sd todo sds Hsd _ IH]; cbn [omap list_omap map];
    [constructor|].
  destruct (fbref_season_keys _ _ _ _ _ _ _ Hsd) as [[-> | ->] _].
  - by constructor.
  - by constructor.
Qed.

Lemma omap_filter_sublist {A B} (f : A -> option B) (p : A -> bool) l :
  sublist (omap f (List.filter p l)) (omap f l).
Proof.
  induction l as [|a l IH]; cbn [List.filter omap list_omap]; [constructor|].
  destruct (p a); cbn [omap list_omap]; destruct (f a); try done;
    by constructor.
Qed.

Lemma get_fbref_team_stats_returns league team :
  exists r out, get_fbref_team_stats league team
                = (Ok r, FetchingFBref team :: out).
Proof.
  unfold get_fbref_team_stats.
  destruct (read_team_season_stats "standard") as [standard|];
    [|by eexists _, _].
  destruct (read_team_season_stats "possession") as [possession|];
    [|by eexists _, _].
  destruct (read_team_season_stats "shooting") as [shooting|];
    [|by eexists _, _].
  cbn [bind print lift try_except].
  destruct (fbref_league_mappings !! lower league) as [league_name|];
    [|by eexists _, _].
  destruct (fbref_loop standard possession shooting league_name team
              fbref_seasons []) as [team_data|e]; [|by eexists _, _].
  cbn [bind]. destruct team_data; by eexists _, _.
Qed.

(** X10.  [get_fbref_team_stats] never raises, and the first line it
    prints announces the fetch.  It returns nothing, after printing the
    error, when one of the three downloads fails (also for a league it
    does not know, since the tables are downloaded first) or when the
    team is not a valid search pattern; it returns nothing, silently,
    when the three downloads succeed and the league is unknown. *)
Theorem get_fbref_team_stats_never_raises league team :
  exists r out,
    get_fbref_team_stats league team = (Ok r, FetchingFBref team :: out)
    /\ (forall stat_type e,
          In stat_type ["standard"; "possession"; "shooting"] ->
          read_team_season_stats stat_type = Raise e ->
          r = None
          /\ exists stat_type' e',
               In stat_type' ["standard"; "possession"; "shooting"]
               /\ read_team_season_stats stat_type' = Raise e'
               /\ out = [ErrorFetchingFBref e'])
    /\ ((forall stat_type,
           In stat_type ["standard"; "possession"; "shooting"] ->
           is_ok (read_team_season_stats stat_type) = true) ->
        (fbref_league_mappings !! lower league = None -> r = None /\ out = [])
        /\ (is_Some (fbref_league_mappings !! lower league) ->
            str_contains team = None ->
            r = None /\ out = [ErrorFetchingFBref ReError])).
Proof.
  unfold get_fbref_team_stats.
  destruct (read_team_season_stats "standard") as [standard|e1] eqn:H1.
  2: { eexists _, _. split; [reflexivity|]. split.
       - intros _ _ _ _. split; [done|].
         exists "standard", e1. split; [by left|]. by split.
       - intros Hok. specialize (Hok "standard" (or_introl eq_refl)).
         by rewrite H1 in Hok. }
  destruct (read_team_season_stats "possession") as [possession|e2] eqn:H2.
  2: { eexists _, _. split; [reflexivity|]. split.
       - intros _ _ _ _. split; [done|].
         exists "possession", e2. split; [right; by left|]. by split.
       - intros Hok.
         specialize (Hok "possession" (or_intror (or_introl eq_refl))).
         by rewrite H2 in Hok. }
  destruct (read_team_season_stats "shooting") as [shooting|e3] eqn:H3.
  2: { eexists _, _. split; [reflexivity|]. split.
       - intros _ _ _ _. split; [done|].
         exists "shooting", e3. split; [right; right; by left|]. by split.
       - intros Hok.
         specialize (Hok "shooting"
                       (or_intror (or_intror (or_introl eq_refl)))).
         by rewrite H3 in Hok. }
  assert (Hreads : forall stat_type e,
             In stat_type ["standard"; "possession"; "shooting"] ->
             read_team_season_stats stat_type <> Raise e).
  { intros st e [<-|[<-|[<-|[]]]]; congruence. }
  cbn [bind print lift try_except].
  destruct (fbref_league_mappings !! lower league) as [league_name|] eqn:Hl.
  2: { eexists _, _. split; [reflexivity|]. split.
       - intros st e Hin He. by destruct (Hreads st e Hin).
       - intros _. split; [done|]. by intros [? [=]]. }
  destruct (fbref_loop standard possession shooting league_name team
              fbref_seasons []) as [team_data|e] eqn:Hloop.
  - assert (Hpat : str_contains team <> None).
    { intros Hnone. unfold fbref_seasons in Hloop. cbn [fbref_loop] in Hloop.
      unfold fbref_season at 1, select at 1 in Hloop.
      by rewrite Hnone in Hloop. }
    cbn [bind]. destruct team_data; eexists _, _;
      (split; [reflexivity|]); (split;
        [intros st e Hin He; by destruct (Hreads st e Hin)
        |intros _; split; [done | by intros _ ?]]).
  - eexists _, _. split; [reflexivity|]. split.
    + intros st e' Hin He. by destruct (Hreads st e' Hin).
    + intros _. split; [done|]. intros _ Hnone. split; [done|].
      unfold fbref_seasons in Hloop. cbn [fbref_loop] in Hloop.
      unfold fbref_season at 1, select at 1 in Hloop.
      rewrite Hnone in Hloop. cbn in Hloop. by injection Hloop as <-.
Qed.

(** X11.  A table returned by [get_fbref_team_stats] is the list of the
    dicts of the seasons that are not empty, in the order of the season
    list: it is not empty, has at most five dicts, none of them empty;
    the seasons the dicts carry are distinct and follow the season list
    (a dict built without a standard row carries none); nothing but the
    announcement was printed. *)
Theorem fbref_table_invariants league team frame out :
  get_fbref_team_stats league team = (Ok (Some frame), out) ->
  out = [FetchingFBref team]
  /\ frame <> []
  /\ (length frame <= 5)%nat
  /\ Forall (fun sd => sd <> ∅) frame
  /\ sublist (omap (fun sd : gmap string cell => sd !! "Season") frame)
             (map CText fbref_seasons).
Proof.
  intros H.
  assert (Hout : out = [FetchingFBref team] /\ frame <> []).
  { revert H. unfold get_fbref_team_stats.
    destruct (read_team_season_stats "standard") as [standard|]; [|done].
    destruct (read_team_season_stats "possession") as [possession|]; [|done].
    destruct (read_team_season_stats "shooting") as [shooting|]; [|done].
    cbn [bind print lift try_except].
    destruct (fbref_league_mappings !! lower league) as [league_name|];
      [|done].
    destruct (fbref_loop standard possession shooting league_name team
                fbref_seasons []) as [team_data|e]; [|done].
    cbn [bind]. destruct team_data as [|sd rest]; [done|].
    cbn. by intros [= <- <-]. }
  destruct Hout as [-> Hne].
  destruct (get_fbref_team_stats_frame _ _ _ _ H)
    as (standard & possession & shooting & league_name & Hloop).
  apply fbref_loop_spec in Hloop as (sds & Hall & ->). cbn [app] in *.
  split; [done|]. split; [done|]. split.
  { pose proof (Forall2_length _ _ _ Hall) as Hlen.
    pose proof (List.filter_length_le
                  (fun sd => negb (bool_decide (sd = ∅))) sds).
    change (length fbref_seasons) with 5%nat in Hlen. lia. }
  split.
  { apply List.Forall_forall. intros sd Hin.
    apply filter_In in Hin as [_ Hsd]. apply negb_true_iff in Hsd.
    intros ->. by rewrite bool_decide_eq_true_2 in Hsd. }
  etrans; [apply omap_filter_sublist|]. by eapply season_keys_in_order.
Qed.
End FBrefFetch.

(** ** The hybrid table *)

Lemma check_columns_raises frame keys e :
  check_columns frame keys = Raise e ->
  exists key, e = KeyError key /\ In key keys
              /\ Forall (fun sd : gmap string cell => sd !! key = None) frame.
Proof.
  induction keys as [|key rest IH]; cbn [check_columns]; [done|].
  destruct (existsb _ frame) eqn:Hex.
  - intros H. destruct (IH H) as (k & -> & Hin & Hall).
    exists k. split; [done|]. split; [by right | done].
  - intros [= <-]. exists key. split; [done|]. split; [by left|].
    apply List.Forall_forall. intros sd Hin.
    destruct (sd !! key) as [c|] eqn:Hc; [|done].
    assert (Htrue : existsb (fun row : gmap string cell =>
                               bool_decide (is_Some (row !! key))) frame
                    = true).
    { apply existsb_exists. exists sd. split; [done|].
      apply bool_decide_eq_true_2. by rewrite Hc. }
    congruence.
Qed.

Section HybridTable.
Context {RT : Runtime} {PV : Provider}.

(** X12.  The only exception [get_hybrid_team_stats] lets escape is the
    KeyError of the column selection on the FBref table: it is raised
    when FBref returned a table in which none of the dicts has one of the
    four selected columns. *)
Theorem hybrid_raises_only_key_error league team e out :
  get_hybrid_team_stats league team = (Raise e, out) ->
  exists key frame,
    e = KeyError key
    /\ In key ["Season"; "Avg_Possession"; "Shots_Per_Game";
               "Shots_on_Target_Per_Game"]
    /\ fst (get_fbref_team_stats league team) = Ok (Some frame)
    /\ frame <> []
    /\ Forall (fun sd : gmap string cell => sd !! key = None) frame.
Proof.
  unfold get_hybrid_team_stats. cbn [bind print].
  destruct (get_team_league_table_stats league team)
    as [[rows|e0] out1] eqn:Hrows; cbn [try_except bind print ret];
    [|done].
  destruct (get_fbref_team_stats league team)
    as [[fbref|e0] out2] eqn:Hfb; cbn [bind].
  2: { destruct (get_fbref_team_stats_returns league team) as (r & o & Hr).
       congruence. }
  destruct fbref as [[|sd frame]|]; [done| |done].
  cbn [bind print lift].
  match goal with
  | |- context [check_columns ?f ?k] =>
      destruct (check_columns f k) eqn:Hcheck
  end; cbn [bind].
  - rewrite (fill_unjoined rows (sd :: frame)); [done|].
    intros left right Hl Hr. by eapply never_joined.
  - intros [= <- _].
    destruct (check_columns_raises _ _ _ Hcheck) as (key & -> & Hin & Hall).
    exists key, (sd :: frame). by repeat split.
Qed.

(** X13.  Whenever the hybrid path returns a merged table, the table has
    one row per league-table record, in order, and each of its three
    added columns holds the estimate computed from that record (the
    clamp of 50 + 0.3 GD, six times the goals per game, 0.35 times the
    shots): no value of the FBref table is in it. *)
Theorem merged_table_holds_estimates league team merged out :
  get_hybrid_team_stats league team = (Ok (Some (Merged merged)), out) ->
  exists rows,
    fst (get_team_league_table_stats league team) = Ok rows
    /\ merged = map estimated_row rows
    /\ map m_basic merged = rows.
Proof.
  intros H. destruct (merged_rows_are_estimates _ _ _ _ H)
    as (rows & out1 & Hrows & ->).
  exists rows. rewrite Hrows. split; [done|]. split; [done|].
  rewrite map_map. cbn [estimated_row m_basic]. apply map_id.
Qed.

(** X14.  [get_hybrid_team_stats] returns nothing exactly when the table
    of the team cannot be built, and then the error is the last line it
    prints; when the table is built and FBref returns nothing, the
    result is that very table, with "using estimated statistics" printed
    last. *)
Theorem hybrid_returns_nothing_iff_no_table league team :
  (fst (get_hybrid_team_stats league team) = Ok None
   <-> exists e, fst (get_team_league_table_stats league team) = Raise e)
  /\ (forall e,
        fst (get_team_league_table_stats league team) = Raise e ->
        last (snd (get_hybrid_team_stats league team)) = Some (ErrorBasic e))
  /\ (forall rows,
        fst (get_team_league_table_stats league team) = Ok rows ->
        fst (get_fbref_team_stats league team) = Ok None ->
        fst (get_hybrid_team_stats league team) = Ok (Some (Basic rows))
        /\ last (snd (get_hybrid_team_stats league team))
           = Some UsingEstimates).
Proof.
  unfold get_hybrid_team_stats. cbn [bind print].
  destruct (get_team_league_table_stats league team)
    as [[rows|e0] out1] eqn:Hrows; cbn [try_except bind print ret fst snd].
  2: { split; [split; [by eexists | done]|]. split; [|done].
       intros e [= <-]. rewrite !app_nil_r, app_assoc. apply last_snoc. }
  destruct (get_fbref_team_stats league team)
    as [[fbref|e0] out2] eqn:Hfb; cbn [bind fst snd].
  2: { destruct (get_fbref_team_stats_returns league team) as (r & o & Hr).
       congruence. }
  destruct fbref as [[|sd frame]|]; cbn [bind print lift ret fst snd].
  - split; [split; [done | by intros [? ?]]|]. split; [done|].
    intros ? _ [=].
  - match goal with
    | |- context [check_columns ?f ?k] => destruct (check_columns f k)
    end; cbn [bind fst snd].
    + rewrite (fill_unjoined rows (sd :: frame)).
      * cbn [bind ret fst snd].
        split; [split; [done | by intros [? ?]]|]. split; [done|].
        intros ? _ [=].
      * intros left right Hl Hr. by eapply never_joined.
    + split; [split; [done | by intros [? ?]]|]. split; [done|].
      intros ? _ [=].
  - split; [split; [done | by intros [? ?]]|]. split; [done|].
    intros rows' [= <-] _. split; [done|].
    rewrite ?app_nil_r, !app_assoc. apply last_snoc.
Qed.
End HybridTable.

(** ** Listing the teams of a league *)

Lemma enumerate_from_zip start teams :
  enumerate_from start teams = zip (seq start (length teams)) teams.
Proof.
  unfold enumerate_from. revert start.
  induction teams as [|team rest IH]; intros start; [done|].
  cbn [imap length seq zip zip_with]. f_equal.
  - f_equal. lia.
  - rewrite <- IH. apply imap_ext. intros i t _. cbn. f_equal. lia.
Qed.

Section ListingProperties.
Context {RT : Runtime} {PV : Provider}.

(** X15.  For a league it knows, [show_available_teams] lists the teams
    of the 2024/2025 table in the order of the table, numbered from 1;
    when the table is empty, and also when fetching it fails (the error
    is printed first), it reports that no team was found. *)
Theorem listing_numbers_the_roster league code :
  league_mappings !! lower league = Some code ->
  (forall table,
     read_league_table code "2024/2025" = Ok table -> table <> [] ->
     show_available_teams league
     = (Ok (TeamsListed league
              (zip (seq 1 (length table)) (map r_team table))), []))
  /\ (read_league_table code "2024/2025" = Ok [] ->
      show_available_teams league = (Ok (NoTeamsFound league), []))
  /\ (forall e,
        read_league_table code "2024/2025" = Raise e ->
        show_available_teams league
        = (Ok (NoTeamsFound league), [ErrorFetchingTeams league e])).
Proof.
  intros Hl. unfold show_available_teams, get_available_teams. rewrite Hl.
  split; [|split].
  - intros table -> Hne. destruct table as [|row rest]; [done|].
    cbn [bind lift ret try_except map app]. f_equal. f_equal. f_equal.
    rewrite enumerate_from_zip. cbn [length]. by rewrite length_map.
  - by intros ->.
  - by intros e ->.
Qed.
End ListingProperties.

(** ** The league-table script *)

Lemma league_mappings_codes k code :
  league_mappings !! k = Some code -> In code predictor_codes.
Proof.
  unfold league_mappings. intros H.
  apply elem_of_list_to_map_2 in H.
  repeat (apply elem_of_cons in H as [[= -> ->]|H];
          [unfold predictor_codes; cbn; tauto|]).
  by apply elem_of_nil in H.
Qed.

Lemma league_tables_lookup t1 t2 t3 t4 t5 k :
  league_tables t1 t2 t3 t4 t5 !! k
  = (fun code : string =>
       if String.eqb code "ENG-Premier League" then t1
       else if String.eqb code "ESP-La Liga" then t2
       else if String.eqb code "GER-Bundesliga" then t3
       else if String.eqb code "ITA-Serie A" then t4
       else t5) <$> league_mappings !! k.
Proof.
  rewrite <- lookup_fmap. reflexivity.
Qed.

Section PredictorProperties.
Context {RT : Runtime} {PV : Provider}.

(** X16.  When the five tables load, the script accepts exactly the
    aliases of the aggregator, after lower-casing: for an alias it shows
    the 2024/2025 table of the league code the aggregator maps the alias
    to, under the title-cased lowered input; for anything else it reports
    that the league is not listed. *)
Theorem predictor_agrees_with_league_mappings typed :
  (forall code, In code predictor_codes ->
     is_ok (read_league_table code "2024/2025") = true) ->
  (forall code,
     league_mappings !! lower typed = Some code ->
     exists table,
       read_league_table code "2024/2025" = Ok table
       /\ predictor typed = Ok (ShowingTable (title (lower typed)) table))
  /\ (league_mappings !! lower typed = None ->
      predictor typed = Ok LeagueNotListed).
Proof.
  intros Hok. unfold predictor.
  pose proof (Hok "ENG-Premier League") as H1.
  pose proof (Hok "ESP-La Liga") as H2.
  pose proof (Hok "GER-Bundesliga") as H3.
  pose proof (Hok "ITA-Serie A") as H4.
  pose proof (Hok "FRA-Ligue 1") as H5.
  unfold predictor_codes in *. cbn [In] in *.
  destruct (read_league_table "ENG-Premier League" "2024/2025") as [t1|]
    eqn:E1; [|by discriminate H1; tauto].
  destruct (read_league_table "ESP-La Liga" "2024/2025") as [t2|]
    eqn:E2; [|by discriminate H2; tauto].
  destruct (read_league_table "GER-Bundesliga" "2024/2025") as [t3|]
    eqn:E3; [|by discriminate H3; tauto].
  destruct (read_league_table "ITA-Serie A" "2024/2025") as [t4|]
    eqn:E4; [|by discriminate H4; tauto].
  destruct (read_league_table "FRA-Ligue 1" "2024/2025") as [t5|]
    eqn:E5; [|by discriminate H5; tauto].
  cbn [rbind]. rewrite league_tables_lookup. split.
  - intros code Hcode. rewrite Hcode. cbn [fmap option_fmap option_map].
    apply league_mappings_codes in Hcode. unfold predictor_codes in Hcode.
    cbn [In] in Hcode.
    destruct Hcode as [<-|[<-|[<-|[<-|[<-|[]]]]]]; eexists; split;
      try eassumption; reflexivity.
  - by intros ->.
Qed.

End PredictorProperties.

(** ** The two league dictionaries *)

(** X18.  The two league dictionaries of the hybrid aggregator have the
    same aliases, and an alias means the same league in both: the code
    of the fast source is a three-letter country code, a dash, and the
    FBref name.  So a league for which the league table was built is
    never unknown to the FBref fetch. *)
Theorem fbref_knows_the_same_leagues :
  (forall alias code,
     league_mappings !! alias = Some code ->
     exists country league_name,
       fbref_league_mappings !! alias = Some league_name
       /\ String.length country = 3%nat
       /\ code = (country ++ "-" ++ league_name)%string)
  /\ (forall alias league_name,
        fbref_league_mappings !! alias = Some league_name ->
        is_Some (league_mappings !! alias))
  /\ (forall (RT : Runtime) (PV : Provider) league team rows out,
        get_team_league_table_stats league team = (Ok rows, out) ->
        is_Some (fbref_league_mappings !! lower league)).
Proof.
  assert (H1 : forall alias code,
             league_mappings !! alias = Some code ->
             exists country league_name,
               fbref_league_mappings !! alias = Some league_name
               /\ String.length country = 3%nat
               /\ code = (country ++ "-" ++ league_name)%string).
  { intros alias code H. unfold league_mappings in H.
    apply elem_of_list_to_map_2 in H.
    repeat (apply elem_of_cons in H as [[= -> ->]|H];
            [first [ by exists "ENG", "Premier League"
                   | by exists "ESP", "La Liga"
                   | by exists "GER", "Bundesliga"
                   | by exists "ITA", "Serie A"
                   | by exists "FRA", "Ligue 1" ]|]).
    by apply elem_of_nil in H. }
  split; [exact H1|]. split.
  - intros alias league_name H. unfold fbref_league_mappings in H.
    apply elem_of_list_to_map_2 in H.
    repeat (apply elem_of_cons in H as [[= -> ->]|H]; [by eexists|]).
    by apply elem_of_nil in H.
  - intros RT PV league team rows out H.
    unfold get_team_league_table_stats in H.
    destruct (league_mappings !! lower league) as [code|] eqn:Hl; [|done].
    destruct (H1 _ _ Hl) as (? & league_name & -> & _). by eexists.
Qed.

(** ** The averages of the summary *)

Lemma fl_sum_of_ints (lo hi : Z) (zs : list Z) :
  Forall (fun z => lo <= z <= hi) zs ->
  exists s,
    fl_sum (map of_int zs) = Fin s
    /\ (inject_Z lo * inject_Z (Z.of_nat (length zs)) <= s)%Q
    /\ (s <= inject_Z hi * inject_Z (Z.of_nat (length zs)))%Q.
Proof.
  induction 1 as [|z zs [Hlo Hhi] _ (s & Hs & H1 & H2)].
  { exists 0%Q. cbn [map fl_sum fold_right length]. split; [done|].
    change (inject_Z (Z.of_nat 0)) with 0%Q. split; lra. }
  cbn [map fl_sum fold_right]. fold (fl_sum (map of_int zs)). rewrite Hs.
  cbn [of_int fl_add]. eexists. split; [reflexivity|].
  rewrite Qred_correct. cbn [length]. rewrite Nat2Z.inj_succ.
  unfold Z.succ. rewrite inject_Z_plus. change (inject_Z 1) with 1%Q.
  rewrite Zle_Qle in Hlo, Hhi. split; lra.
Qed.

(** X20.  On a table that is not empty, the average of the points is a
    number between the points of the worst season and the points of the
    best season of the same summary. *)
Theorem average_points_between_worst_and_best stats :
  stats <> [] ->
  exists worst lo best hi q,
    worst_season (summary_stats stats) = Some (worst, lo)
    /\ best_season (summary_stats stats) = Some (best, hi)
    /\ avg_points (summary_stats stats) = Fin q
    /\ (inject_Z lo <= q <= inject_Z hi)%Q.
Proof.
  destruct stats as [|r0 rest] eqn:Hstats; [done|]. intros _.
  rewrite <- Hstats.
  assert (Hbest : exists best hi,
             best_season (summary_stats stats) = Some (best, hi)
             /\ forall r, In r stats -> points_of r <= hi).
  { rewrite Hstats. cbn [summary_stats best_season extreme_season].
    fold (points_of r0).
    destruct (extreme_season Z.gtb rest
                (Some (Season (basic r0), points_of r0)))
      as [[s p]|] eqn:He; [|by apply extreme_season_some in He].
    apply extreme_season_max in He as (Hall & Hp & _).
    exists s, p. split; [done|].
    intros r [<-|Hin]; [lia | by apply Hall]. }
  assert (Hworst : exists worst lo,
             worst_season (summary_stats stats) = Some (worst, lo)
             /\ forall r, In r stats -> lo <= points_of r).
  { rewrite Hstats. cbn [summary_stats worst_season extreme_season].
    fold (points_of r0).
    destruct (extreme_season Z.ltb rest
                (Some (Season (basic r0), points_of r0)))
      as [[s p]|] eqn:He; [|by apply extreme_season_some in He].
    apply extreme_season_min in He as (Hall & Hp & _).
    exists s, p. split; [done|].
    intros r [<-|Hin]; [lia | by apply Hall]. }
  destruct Hbest as (best & hi & Hbest & Hhi).
  destruct Hworst as (worst & lo & Hworst & Hlo).
  exists worst, lo, best, hi.
  assert (Hall : Forall (fun z => lo <= z <= hi) (map points_of stats)).
  { apply List.Forall_forall. intros z Hin.
    apply in_map_iff in Hin as (r & <- & Hin). split; auto. }
  destruct (fl_sum_of_ints lo hi _ Hall) as (s & Hs & H1 & H2).
  rewrite map_map in Hs. rewrite length_map in H1, H2.
  assert (Hn : (0 < inject_Z (Z.of_nat (length stats)))%Q).
  { rewrite Hstats. cbn [length]. rewrite Nat2Z.inj_succ.
    change 0%Q with (inject_Z 0). rewrite <- Zlt_Qlt. lia. }
  eexists. split; [done|]. split; [done|].
  cbn [summary_stats avg_points].
  rewrite mean_defined.
  - rewrite length_map.
    change (map (fun r => of_int (Points (basic r))) stats)
      with (map (fun r => of_int (points_of r)) stats).
    rewrite Hs. unfold of_int. cbn [fl_div].
    replace (Qzero (inject_Z (Z.of_nat (length stats)))) with false.
    + split; [reflexivity|]. rewrite Qred_correct. split.
      * apply Qle_shift_div_l; [done|]. lra.
      * apply Qle_shift_div_r; [done|]. lra.
    + symmetry. unfold Qzero. cbn. apply Z.eqb_neq.
      rewrite Hstats. cbn [length]. lia.
  - rewrite Hstats. done.
  - apply List.Forall_forall. intros x Hin.
    by apply in_map_iff in Hin as (r & <- & _).
Qed.

(** ** The quick test *)

Section QuickTestProperties.
Context {RT : Runtime} {PV : Provider}.

(** X21.  The quick test never reports a failure: [display_team_stats]
    catches every exception, so the handler of the test, with its
    listing of the teams, never runs.  The test prints its success line,
    last, exactly when the table of Arsenal was built; otherwise it ends
    after the error line of the aggregator and returns nothing. *)
Theorem quick_test_never_reports_failure nz :
  (forall e, ~ In (TestFailed e) (snd (test_team_stats nz)))
  /\ ~ In TryingDebug (snd (test_team_stats nz))
  /\ (forall rows,
        fst (get_team_league_table_stats "england" "Arsenal") = Ok rows ->
        fst (test_team_stats nz) = Some (imap (enhance nz) rows)
        /\ last (snd (test_team_stats nz)) = Some TestCompleted)
  /\ (forall e,
        fst (get_team_league_table_stats "england" "Arsenal") = Raise e ->
        fst (test_team_stats nz) = None
        /\ last (snd (test_team_stats nz))
           = Some (FromAggregator (DisplayError e))).
Proof.
  assert (Hno : forall (x : test_line) out,
             (forall l, x <> FromAggregator l) ->
             ~ In x (map FromAggregator out)).
  { intros x out Hx Hin. apply in_map_iff in Hin as (l & <- & _).
    by apply (Hx l). }
  unfold test_team_stats, display_team_stats, get_enhanced_team_stats.
  destruct (get_team_league_table_stats "england" "Arsenal")
    as [[rows|e0] out]; cbn [bind try_except print ret fst snd].
  - split.
    { intros e [H|H]; [done|].
      apply in_app_or in H as [H|[H|[]]]; [|done].
      by apply Hno in H. }
    split.
    { intros [H|H]; [done|].
      apply in_app_or in H as [H|[H|[]]]; [|done].
      by apply Hno in H. }
    split; [|done]. intros rows' [= <-]. split; [done|].
    apply last_snoc.
  - split.
    { intros e [H|H]; [done|]. by apply Hno in H. }
    split.
    { intros [H|H]; [done|]. by apply Hno in H. }
    split; [done|]. intros e [= <-]. split; [done|].
    rewrite app_nil_r, map_app. cbn [map].
    by rewrite app_comm_cons, last_snoc.
Qed.
End QuickTestProperties.

(** ** The further properties on the sample providers *)

Lemma unknown_league_is_rejected_witness :
  get_team_league_table_stats (PV := provider_down) "portugal" "Benfica"
  = (Raise (LeagueNotFound "portugal"), [])
  /\ display_team_stats (PV := provider_down) "portugal" "Benfica" no_noise
     = (Ok None, [DisplayError (LeagueNotFound "portugal")]).
Proof.
  destruct (unknown_league_is_rejected (PV := provider_down)
              "portugal" "Benfica" "2024/2025" no_noise)
    as (_ & _ & H3 & _ & H5 & _); [reflexivity|].
  split; [exact H3 | exact H5].
Defined.

Lemma resolved_team_is_in_roster_witness :
  exists code table,
    league_mappings !! lower "england" = Some code
    /\ read_league_table (Provider := league_table_provider three_of_five)
         code "2024/2025" = Ok table
    /\ In "Tottenham Hotspur" (map r_team table).
Proof.
  destruct (resolved_team_is_in_roster
              (PV := league_table_provider three_of_five)
              "england" "spurs" "2024/2025" "Tottenham Hotspur" [])
    as [_ H]; [vm_compute; reflexivity | exact H].
Defined.

Lemma empty_query_takes_first_team_witness :
  find_team_match (PV := league_table_provider three_of_five)
    "england" "" "2024/2025" = (Ok (Some "Chelsea"), []).
Proof.
  apply (empty_query_takes_first_team
           (PV := league_table_provider three_of_five)
           "england" "" "2024/2025" "ENG-Premier League"
           [chelsea; arsenal_2024; tottenham]
           "Chelsea" ["Arsenal"; "Tottenham Hotspur"]);
    [reflexivity | reflexivity | reflexivity | reflexivity |].
  intros u [<-|[<-|[<-|[]]]]; vm_compute; discriminate.
Defined.

Lemma unmatched_team_reports_roster_witness :
  get_team_league_table_stats (PV := league_table_provider three_of_five)
    "england" "Real Madrid"
  = (Raise (TeamNotFound "Real Madrid" "england"
              ["Chelsea"; "Arsenal"; "Tottenham Hotspur"]), []).
Proof.
  apply (unmatched_team_reports_roster
           (PV := league_table_provider three_of_five)
           "england" "Real Madrid" "ENG-Premier League"
           [chelsea; arsenal_2024; tottenham] []);
    [reflexivity | reflexivity | vm_compute; reflexivity].
Defined.

Lemma no_included_season_is_no_data_witness :
  fst (get_team_league_table_stats
         (PV := league_table_provider (only_2024 points_as_text))
         "england" "arsenal")
  = Raise (NoDataFound "Arsenal" "england").
Proof.
  destruct (no_included_season_is_no_data
              (PV := league_table_provider (only_2024 points_as_text))
              "england" "arsenal" "ENG-Premier League" "Arsenal" [] no_noise)
    as (H & _);
    [reflexivity | vm_compute; reflexivity | discriminate
    | vm_compute; reflexivity | exact H].
Defined.

Lemma table_of_a_team_invariants_witness :
  exists rows,
    fst (get_team_league_table_stats
           (PV := league_table_provider three_of_five) "england" "arsenal")
    = Ok rows
    /\ NoDup (map Season rows)
    /\ Forall (fun st => Team st = "Arsenal" /\ League st = "England") rows.
Proof.
  destruct (get_team_league_table_stats
              (PV := league_table_provider three_of_five) "england" "arsenal")
    as [[rows|e] out] eqn:H.
  - exists rows. split; [reflexivity|].
    destruct (table_of_a_team_invariants
                (PV := league_table_provider three_of_five) _ _ _ _ H)
      as (_ & _ & Hnd & name & out0 & Hf & Hall).
    split; [exact Hnd|].
    vm_compute in Hf. injection Hf as <- _. exact Hall.
  - vm_compute in H. discriminate H.
Defined.

Lemma enhanced_shots_are_clamped_witness :
  exists stats,
    fst (get_enhanced_team_stats
           (PV := league_table_provider three_of_five)
           "england" "arsenal" no_noise) = Ok stats
    /\ Forall (fun r => within 8 20 (Shots_Per_Game r)) stats.
Proof.
  destruct (get_enhanced_team_stats
              (PV := league_table_provider three_of_five)
              "england" "arsenal" no_noise) as [[stats|e] out] eqn:H.
  - exists stats. split; [reflexivity|].
    exact (proj1 (enhanced_shots_are_clamped
                    (PV := league_table_provider three_of_five) _ _ _ _ _ H)).
  - vm_compute in H. discriminate H.
Defined.


Lemma best_and_worst_season_witness :
  exists before r after,
    arsenal_report = before ++ r :: after
    /\ best_season (summary_stats arsenal_report)
       = Some (Season (basic r), points_of r)
    /\ (forall r', In r' arsenal_report -> points_of r' <= points_of r)
    /\ (forall r', In r' before -> points_of r' < points_of r).
Proof.
  refine (proj1 (best_and_worst_season arsenal_report _)).
  vm_compute. discriminate.
Defined.

Lemma average_points_between_worst_and_best_witness :
  exists worst lo best hi q,
    worst_season (summary_stats arsenal_report) = Some (worst, lo)
    /\ best_season (summary_stats arsenal_report) = Some (best, hi)
    /\ avg_points (summary_stats arsenal_report) = Fin q
    /\ (inject_Z lo <= q <= inject_Z hi)%Q.
Proof.
  apply (average_points_between_worst_and_best arsenal_report).
  vm_compute. discriminate.
Defined.

Lemma fbref_table_invariants_witness :
  (length [leicester_city_2024] <= 5)%nat
  /\ Forall (fun sd : gmap string cell => sd <> ∅) [leicester_city_2024]
  /\ sublist (omap (fun sd : gmap string cell => sd !! "Season")
                [leicester_city_2024])
             (map CText fbref_seasons).
Proof.
  destruct (fbref_table_invariants (PV := two_cities) "england" "city"
              [leicester_city_2024] [FetchingFBref "city"])
    as (_ & _ & H3 & H4 & H5); [by_evaluation|].
  split; [exact H3|]. split; [exact H4 | exact H5].
Defined.

Lemma hybrid_raises_only_key_error_witness :
  exists key frame,
    KeyError "Avg_Possession" = KeyError key
    /\ In key ["Season"; "Avg_Possession"; "Shots_Per_Game";
               "Shots_on_Target_Per_Game"]
    /\ fst (get_fbref_team_stats (PV := without_possession) "england" "city")
       = Ok (Some frame)
    /\ frame <> []
    /\ Forall (fun sd : gmap string cell => sd !! key = None) frame.
Proof.
  apply (hybrid_raises_only_key_error (PV := without_possession)
           "england" "city" (KeyError "Avg_Possession")
           (snd (get_hybrid_team_stats (PV := without_possession)
                   "england" "city"))).
  by_evaluation.
Defined.

Lemma merged_table_holds_estimates_witness :
  exists merged rows,
    fst (get_hybrid_team_stats (PV := two_cities) "england" "city")
    = Ok (Some (Merged merged))
    /\ fst (get_team_league_table_stats (PV := two_cities) "england" "city")
       = Ok rows
    /\ merged = map estimated_row rows.
Proof.
  destruct (get_hybrid_team_stats (PV := two_cities) "england" "city")
    as [[[[merged|rows]|]|e] out] eqn:H;
    [|vm_compute in H; discriminate H..].
  destruct (merged_table_holds_estimates (PV := two_cities) _ _ _ _ H)
    as (rows & H1 & H2 & _).
  exists merged, rows. split; [reflexivity|]. split; [exact H1 | exact H2].
Defined.

Lemma listing_numbers_the_roster_witness :
  show_available_teams (PV := league_table_provider three_of_five) "england"
  = (Ok (TeamsListed "england"
           [(1%nat, "Chelsea"); (2%nat, "Arsenal");
            (3%nat, "Tottenham Hotspur")]), []).
Proof.
  destruct (listing_numbers_the_roster
              (PV := league_table_provider three_of_five)
              "england" "ENG-Premier League")
    as (H & _); [reflexivity|].
  apply (H [chelsea; arsenal_2024; tottenham]); [reflexivity | discriminate].
Defined.

Lemma predictor_agrees_with_league_mappings_witness :
  predictor (PV := same_table_everywhere) "EPL"
  = Ok (ShowingTable "Epl" [chelsea]).
Proof.
  destruct (predictor_agrees_with_league_mappings
              (PV := same_table_everywhere) "EPL") as (H & _).
  - intros code _. reflexivity.
  - destruct (H "ENG-Premier League") as (table & Ht & Hp); [reflexivity|].
    injection Ht as <-. exact Hp.
Defined.

